(** * service-bus-azure-watcher: a shallow embedding of [index.js]

    The watcher pulls messages from an Azure Service Bus queue in peek-lock
    mode and keeps between one and [concurrency] receive chains alive.  The
    JavaScript class [ServiceBusAzureWatcher] is embedded as a record of its
    fields and one Rocq function per method or callback.  Everything the
    class does to the outside world (calls on the service-bus client,
    [setTimeout], [emit]) is written to an effect log; the answers of the
    outside world come back as events of a small event loop. *)

From Stdlib Require Import ZArith List String Ascii Bool Lia Arith.
From Equations Require Import Equations.
Import ListNotations.

Local Open Scope string_scope.
Local Open Scope list_scope.
Local Open Scope Z_scope.

(** ** JavaScript values that reach the watcher *)

(** The [code] property of an error object handed over by the client. *)
Inductive JsCode : Type :=
| CodeMissing
| CodeString (s : string)
| CodeNumber (n : Z).

(** The values seen in the [err] position of a callback and in the argument
    of [done]: [null]/[undefined], a string, or an object. *)
Inductive JsValue : Type :=
| JsNull
| JsString (s : string)
| JsObject (code : JsCode).

(** [if (v)] *)
Definition truthy (v : JsValue) : bool :=
  match v with
  | JsNull => false
  | JsString s => negb (String.eqb s "")
  | JsObject _ => true
  end.

(** [v !== null && typeof v === 'object'] *)
Definition isObject (v : JsValue) : bool :=
  match v with
  | JsObject _ => true
  | _ => false
  end.

(** [v.code === c] for a string literal [c] *)
Definition codeIs (v : JsValue) (c : string) : bool :=
  match v with
  | JsObject (CodeString s) => String.eqb s c
  | _ => false
  end.

(** [v === c] for a string literal [c] *)
Definition strictEqString (v : JsValue) (c : string) : bool :=
  match v with
  | JsString s => String.eqb s c
  | _ => false
  end.

(** ** [parseInt(s, 10)]

    [None] stands for [NaN].  Leading white space is skipped, one sign is
    read, and the longest run of decimal digits is the value. *)

Definition isStrWhiteSpace (c : ascii) : bool :=
  let n := nat_of_ascii c in
  ((n =? 9) || (n =? 10) || (n =? 11) || (n =? 12) || (n =? 13) || (n =? 32))%nat.

Fixpoint trimStart (s : string) : string :=
  match s with
  | EmptyString => EmptyString
  | String c r => if isStrWhiteSpace c then trimStart r else s
  end.

Definition digitValue (c : ascii) : option Z :=
  let n := Z.of_nat (nat_of_ascii c) in
  if (48 <=? n) && (n <=? 57) then Some (n - 48) else None.

Fixpoint parseDigits (s : string) (acc : option Z) : option Z :=
  match s with
  | EmptyString => acc
  | String c r =>
      match digitValue c with
      | Some d =>
          parseDigits r (Some (10 * match acc with Some a => a | None => 0 end + d))
      | None => acc
      end
  end.

Definition parseInt (s : string) : option Z :=
  match trimStart s with
  | String "-" r => option_map Z.opp (parseDigits r None)
  | String "+" r => parseDigits r None
  | t => parseDigits t None
  end.

(** [n || d] on numbers: [0] and [NaN] are falsy. *)
Definition orNumber (n : option Z) (d : Z) : Z :=
  match n with
  | Some z => if z =? 0 then d else z
  | None => d
  end.

(** ** Constants of [index.js] *)

Definition CHECK_CONCURRENCY_TIMER : Z := 10000.

Definition ON_ERROR_READ_MESSAGE_FROM_AZURE : string := "on_error_read_message_from_azure".
Definition QUEUE_NOT_FOUND : string := "queue_not_found".
Definition ON_UNLOCK_MESSAGE_FROM_AZURE : string := "on_unlock_message_from_azure".
Definition ON_REMOVE_MESSAGE_FROM_AZURE : string := "on_remove_unlock_message_from_azure".
Definition ON_UNLOCK_MESSAGE_FROM_AZURE_MAX_ATTEMPTS : string :=
  "on_unlock_message_from_azure_max_attempts".
Definition ON_DELETE_MESSAGE_FROM_AZURE_MAX_ATTEMPTS : string :=
  "on_delete_message_from_azure_max_attempts".
Definition MAX_THREADS_EXCEEDED : string := "max_threads_exceeded".
Definition START_ERROR : string := "start_error".

Definition AZURE_NO_MESSAGES : string := "No messages to receive".

(** [optionRetryPromise]: declared next to [require('promise-retry')]. *)
Record RetryOptions : Type := mkRetryOptions {
  retries : Z;
  maxTimeout : Z
}.

Definition optionRetryPromise : RetryOptions :=
  {| retries := 3; maxTimeout := 4000 |}.

(** ** Data model *)

(** A peek-locked message is an opaque handle. *)
Definition Message : Type := nat.

(** One entry of [listQueues]; [ActiveMessageCount] is the raw text of
    [CountDetails['d2p1:ActiveMessageCount']]. *)
Record QueueData : Type := mkQueueData {
  QueueName : string;
  ActiveMessageCount : string
}.

(** [class ErrorMessage]: [new ErrorMessage(message, status, queueMessage)]. *)
Record ErrorMessage : Type := mkErrorMessage {
  originalAzureError : JsValue;
  status : string;
  queueMessage : option Message
}.

(** What a promise is rejected with: an instance of [ErrorMessage] or the
    value the client passed. *)
Inductive Reason : Type :=
| ReasonErrorMessage (e : ErrorMessage)
| ReasonValue (v : JsValue).

(** [err instanceof ErrorMessage] *)
Definition instanceofErrorMessage (r : Reason) : option ErrorMessage :=
  match r with
  | ReasonErrorMessage e => Some e
  | ReasonValue _ => None
  end.

Inductive Settlement (A : Type) : Type :=
| Resolved (a : A)
| Rejected (r : Reason).
Arguments Resolved {A} a.
Arguments Rejected {A} r.

(** Functions handed to [setTimeout]. *)
Inductive Task : Type :=
| TReadOneMessage
| TStartChecker
| TCheckConcurrency.

(** The two places that wait for [getQueueData]. *)
Inductive LookupSite : Type :=
| AtStart
| AtCheckConcurrency.

(** What the watcher does to the outside world. *)
Inductive Effect : Type :=
| EmitError (e : ErrorMessage)
| EmitStartError (e : ErrorMessage)
| EmitDebug (message : string)
| SetTimeout (t : Task) (delay : Z)
| CallListQueues (site : LookupSite)
| CallReceive
| CallUnlock (m : option Message)
| CallDelete (m : option Message)
| CallHandler (m : option Message).

(** The fields of [ServiceBusAzureWatcher]. *)
Record Watcher : Type := mkWatcher {
  queueName : string;
  concurrency : Z;
  queueData : option QueueData;
  isStartRunning : bool;
  maxThreadsCreated : Z;
  lastReadMessageAt : option Z;
  lastReadMessage : option Message;
  lastReadErrorMessage : JsValue;
  lastJobDoneAt : option Z;
  lastJobDone : option Message;
  lastJobErrorDone : option Reason
}.

(** [constructor(azureServiceBus, queueName, concurrency = 1)] *)
Definition newWatcher (name : string) (c : option Z) : Watcher :=
  {| queueName := name;
     concurrency := match c with Some n => n | None => 1 end;
     queueData := None;
     isStartRunning := false;
     maxThreadsCreated := 0;
     lastReadMessageAt := None;
     lastReadMessage := None;
     lastReadErrorMessage := JsNull;
     lastJobDoneAt := None;
     lastJobDone := None;
     lastJobErrorDone := None |}.

Definition set_queueData (v : option QueueData) (w : Watcher) : Watcher :=
  mkWatcher (queueName w) (concurrency w) v (isStartRunning w)
    (maxThreadsCreated w) (lastReadMessageAt w) (lastReadMessage w)
    (lastReadErrorMessage w) (lastJobDoneAt w) (lastJobDone w) (lastJobErrorDone w).

Definition set_isStartRunning (v : bool) (w : Watcher) : Watcher :=
  mkWatcher (queueName w) (concurrency w) (queueData w) v
    (maxThreadsCreated w) (lastReadMessageAt w) (lastReadMessage w)
    (lastReadErrorMessage w) (lastJobDoneAt w) (lastJobDone w) (lastJobErrorDone w).

Definition set_maxThreadsCreated (v : Z) (w : Watcher) : Watcher :=
  mkWatcher (queueName w) (concurrency w) (queueData w) (isStartRunning w)
    v (lastReadMessageAt w) (lastReadMessage w)
    (lastReadErrorMessage w) (lastJobDoneAt w) (lastJobDone w) (lastJobErrorDone w).

Definition set_lastRead (at_ : option Z) (m : option Message) (e : JsValue)
    (w : Watcher) : Watcher :=
  mkWatcher (queueName w) (concurrency w) (queueData w) (isStartRunning w)
    (maxThreadsCreated w) at_ m e
    (lastJobDoneAt w) (lastJobDone w) (lastJobErrorDone w).

Definition set_lastJobDone (at_ : option Z) (m : option Message) (w : Watcher) : Watcher :=
  mkWatcher (queueName w) (concurrency w) (queueData w) (isStartRunning w)
    (maxThreadsCreated w) (lastReadMessageAt w) (lastReadMessage w)
    (lastReadErrorMessage w) at_ m (lastJobErrorDone w).

Definition set_lastJobErrorDone (v : option Reason) (w : Watcher) : Watcher :=
  mkWatcher (queueName w) (concurrency w) (queueData w) (isStartRunning w)
    (maxThreadsCreated w) (lastReadMessageAt w) (lastReadMessage w)
    (lastReadErrorMessage w) (lastJobDoneAt w) (lastJobDone w) v.

(** ** The monad of a method body: watcher state plus an effect log *)

Definition M (A : Type) : Type := Watcher -> A * Watcher * list Effect.

Definition ret {A} (a : A) : M A := fun w => (a, w, []).

Definition stateOf {A} (r : A * Watcher * list Effect) : Watcher := snd (fst r).
Definition effectsOf {A} (r : A * Watcher * list Effect) : list Effect := snd r.
Definition valueOf {A} (r : A * Watcher * list Effect) : A := fst (fst r).

Definition bind {A B} (c : M A) (k : A -> M B) : M B :=
  fun w =>
    let r1 := c w in
    let r2 := k (valueOf r1) (stateOf r1) in
    (valueOf r2, stateOf r2, effectsOf r1 ++ effectsOf r2).

Definition get : M Watcher := fun w => (w, w, []).
Definition modify (f : Watcher -> Watcher) : M unit := fun w => (tt, f w, []).
Definition perform (e : Effect) : M unit := fun w => (tt, w, [e]).

Declare Scope js_scope.
Delimit Scope js_scope with js.
Notation "x <- c ;; k" := (bind c (fun x => k))
  (at level 61, c at next level, right associativity) : js_scope.
Notation "c ;; k" := (bind c (fun _ => k))
  (at level 61, right associativity) : js_scope.
Local Open Scope js_scope.

(** A method that can throw returns its completion as a value. *)
Inductive Completion : Type :=
| Normal
| Throw (r : Reason).

(** ** [ServiceBusPrivate] *)

(** The callback of [listQueues] inside [getQueueData]; [remoteQueues] is
    [None] when the client returns something that is not an array. *)
Definition getQueueData_callback (name : string) (err : JsValue)
    (remoteQueues : option (list QueueData)) : Settlement (option QueueData) :=
  if truthy err then Rejected (ReasonValue err)
  else
    match remoteQueues with
    | None => Rejected (ReasonValue (JsString "remoteQueues is not an array"))
    | Some qs =>
        let myQueues := filter (fun queue => String.eqb (QueueName queue) name) qs in
        Resolved (match myQueues with
                  | [] => None
                  | q :: _ => Some q
                  end)
    end.

(** The callback of [serviceBus.unlockMessage] inside [unlockMessage]. *)
Definition unlockMessage_callback (message : option Message) (err : JsValue)
    : Settlement unit :=
  if isObject err && codeIs err "404" then
    Rejected (ReasonErrorMessage (mkErrorMessage err ON_UNLOCK_MESSAGE_FROM_AZURE message))
  else if truthy err then Rejected (ReasonValue err)
  else Resolved tt.

(** The callback of [serviceBus.deleteMessage] inside [removeMessage]. *)
Definition removeMessage_callback (message : option Message) (err : JsValue)
    : Settlement unit :=
  if isObject err && codeIs err "404" then
    Rejected (ReasonErrorMessage (mkErrorMessage err ON_REMOVE_MESSAGE_FROM_AZURE message))
  else if truthy err then Rejected (ReasonValue err)
  else Resolved tt.

(** ** [ServiceBusAzureWatcher] *)

Definition inspect {A} (a : A) : {b : A | a = b} := exist _ a eq_refl.

(** [new ErrorMessage('queue not found: ' + queueName, QUEUE_NOT_FOUND, null)] *)
Definition queueNotFound (w : Watcher) : ErrorMessage :=
  mkErrorMessage (JsString (String.append "queue not found: " (queueName w)))
    QUEUE_NOT_FOUND None.

(** [parseInt(queueData.CountDetails['d2p1:ActiveMessageCount'], 10) || 0] *)
Definition activeMessageCount (qd : QueueData) : Z :=
  orNumber (parseInt (ActiveMessageCount qd)) 0.

(** Plain record of [getWatcherInfo()]. *)
Record WatcherInfo : Type := mkWatcherInfo {
  info_isStartRunning : bool;
  info_queueName : string;
  info_concurrency : Z;
  info_maxThreadsCreated : Z;
  info_queueData : option QueueData;
  info_currentMessagesInQueue : Z;
  info_lastReadMessageAt : option Z;
  info_lastReadMessage : option Message;
  info_lastReadErrorMessage : JsValue;
  info_lastJobDoneAt : option Z;
  info_lastJobDone : option Message;
  info_lastJobErrorDone : option Reason
}.

(** [t || null] on a time stamp and [v || null] on a value. *)
Definition numberOrNull (t : option Z) : option Z :=
  match t with
  | Some z => if z =? 0 then None else Some z
  | None => None
  end.

Definition valueOrNull (v : JsValue) : JsValue :=
  if truthy v then v else JsNull.

Definition reasonOrNull (r : option Reason) : option Reason :=
  match r with
  | Some (ReasonValue v) => if truthy v then r else None
  | _ => r
  end.

Definition getWatcherInfo (w : Watcher) : WatcherInfo :=
  {| info_isStartRunning := isStartRunning w;
     info_queueName := queueName w;
     info_concurrency := concurrency w;
     info_maxThreadsCreated := orNumber (Some (maxThreadsCreated w)) (-2);
     info_queueData := queueData w;
     info_currentMessagesInQueue :=
       match queueData w with
       | Some qd => orNumber (parseInt (ActiveMessageCount qd)) 0
       | None => -1
       end;
     info_lastReadMessageAt := numberOrNull (lastReadMessageAt w);
     info_lastReadMessage := lastReadMessage w;
     info_lastReadErrorMessage := valueOrNull (lastReadErrorMessage w);
     info_lastJobDoneAt := numberOrNull (lastJobDoneAt w);
     info_lastJobDone := lastJobDone w;
     info_lastJobErrorDone := reasonOrNull (lastJobErrorDone w) |}.

(** [readOneMessage()], up to the call of [receiveQueueMessage]. *)
Definition readOneMessage : M unit :=
  w <- get;;
  if maxThreadsCreated w >? concurrency w then
    modify (set_maxThreadsCreated (concurrency w));;
    perform (EmitError (mkErrorMessage (JsString MAX_THREADS_EXCEEDED)
                          MAX_THREADS_EXCEEDED None))
  else
    perform CallReceive.

(** The closure returned by the [done] factory: what [done(err)] does before
    the promise of [unlockMessage] or [removeMessage] settles. *)
Definition done (originalMessage : option Message) (err : JsValue) : M unit :=
  if truthy err then perform (CallUnlock originalMessage)
  else perform (CallDelete originalMessage).

(** [.then(() => ...).catch((err) => ...)] behind [unlockMessage]. *)
Definition done_unlock_settled (s : Settlement unit) : M unit :=
  match s with
  | Resolved _ => readOneMessage
  | Rejected err =>
      modify (set_lastJobErrorDone (Some err));;
      match instanceofErrorMessage err with
      | Some e => perform (EmitError e)
      | None => ret tt
      end;;
      readOneMessage
  end.

(** [.then((data) => ...).catch((err) => ...)] behind [removeMessage]. *)
Definition done_remove_settled (s : Settlement unit) : M unit :=
  match s with
  | Resolved _ => readOneMessage
  | Rejected err =>
      modify (set_lastJobErrorDone (Some err));;
      match instanceofErrorMessage err with
      | Some e => perform (EmitError e)
      | None => ret tt
      end;;
      readOneMessage
  end.

(** The callback of [receiveQueueMessage].  [now] and [now'] are the two
    readings of [Date.now()], the second one taken by the [done] factory. *)
Definition readOneMessage_callback (now now' : Z) (err : JsValue)
    (message : option Message) : M unit :=
  modify (set_lastRead (Some now) message err);;
  if strictEqString err AZURE_NO_MESSAGES then
    perform (SetTimeout TReadOneMessage 500)
  else if truthy err then
    perform (EmitError (mkErrorMessage err ON_ERROR_READ_MESSAGE_FROM_AZURE message));;
    perform (SetTimeout TReadOneMessage 500)
  else
    modify (set_lastJobDone (Some now') message);;
    perform (CallHandler message).

(** The loop of [startReceivingMessages]:
    [while (++maxCallsInvoked < concurrency && maxCallsInvoked < currentMessagesInQueue
            && maxThreadsCreated < concurrency)].
    It returns the final [maxCallsInvoked] and [delay]. *)
Equations? startReceivingMessages_while (currentMessagesInQueue i : Z)
    (maxCallsInvoked delay : Z) (w : Watcher) : (Z * Z) * Watcher * list Effect
    by wf (Z.to_nat (concurrency w - maxThreadsCreated w)) lt :=
  startReceivingMessages_while currentMessagesInQueue i maxCallsInvoked delay w
    with inspect ((maxCallsInvoked + 1 <? concurrency w)
                  && (maxCallsInvoked + 1 <? currentMessagesInQueue)
                  && (maxThreadsCreated w <? concurrency w)) := {
    | exist _ true _ =>
        let w1 := set_maxThreadsCreated (maxThreadsCreated w + 1) w in
        let delay1 := i + 25 in
        let r := startReceivingMessages_while currentMessagesInQueue i
                   (maxCallsInvoked + 1) delay1 w1 in
        (valueOf r, stateOf r, SetTimeout TReadOneMessage delay1 :: effectsOf r)
    | exist _ false _ => ((maxCallsInvoked + 1, delay), w, [])
    }.
Proof.
  cbn. apply andb_true_iff in e as [_ Hlt]. apply Z.ltb_lt in Hlt. lia.
Qed.

(** [startReceivingMessages()]; reading [this.queueData.CountDetails] of a
    [null] snapshot throws a [TypeError]. *)
Definition startReceivingMessages : M Completion :=
  let delay := 0 in
  let i := 0 in
  modify (set_isStartRunning true);;
  modify (set_maxThreadsCreated 0);;
  w <- get;;
  match queueData w with
  | None => ret (Throw (ReasonValue (JsObject CodeMissing)))
  | Some qd =>
      let currentMessagesInQueue := orNumber (parseInt (ActiveMessageCount qd)) 0 in
      if currentMessagesInQueue =? 0 then
        modify (fun w => set_maxThreadsCreated (maxThreadsCreated w + 1) w);;
        readOneMessage;;
        ret Normal
      else
        let maxCallsInvoked := -1 in
        _ <- startReceivingMessages_while currentMessagesInQueue i maxCallsInvoked delay;;
        modify (set_isStartRunning false);;
        ret Normal
  end.

(** The body of the loop of [checkConcurrency]:
    [maxThreadsCreated = maxThreadsCreated + 1; readOneMessage();] *)
Definition checkConcurrency_body : M unit :=
  modify (fun w => set_maxThreadsCreated (maxThreadsCreated w + 1) w);;
  readOneMessage.

(** The loop of [checkConcurrency]:
    [while (maxThreadsCreated < concurrency) { ... }] *)
Equations? checkConcurrency_while (w : Watcher) : unit * Watcher * list Effect
    by wf (Z.to_nat (concurrency w - maxThreadsCreated w)) lt :=
  checkConcurrency_while w with inspect (maxThreadsCreated w <? concurrency w) := {
    | exist _ true _ =>
        let r := checkConcurrency_while (stateOf (checkConcurrency_body w)) in
        (tt, stateOf r, effectsOf (checkConcurrency_body w) ++ effectsOf r)
    | exist _ false _ => (tt, w, [])
    }.
Proof.
  apply Z.ltb_lt in e.
  unfold checkConcurrency_body, readOneMessage, bind, modify, get, perform, stateOf.
  cbn. destruct (Z.gtb_spec (maxThreadsCreated w + 1) (concurrency w)); cbn; lia.
Qed.

(** [checkConcurrency()], up to the call of [getQueueData]. *)
Definition checkConcurrency : M unit :=
  w <- get;;
  match queueData w with
  | Some _ => perform (CallListQueues AtCheckConcurrency)
  | None => ret tt
  end.

(** [.then((queueData) => ...)] of [checkConcurrency]. *)
Definition checkConcurrency_then (qd : option QueueData) : M unit :=
  match qd with
  | None =>
      perform (SetTimeout TCheckConcurrency CHECK_CONCURRENCY_TIMER);;
      w <- get;;
      perform (EmitError (queueNotFound w))
  | Some qd =>
      modify (set_queueData (Some qd));;
      let currentMessagesInQueue := orNumber (parseInt (ActiveMessageCount qd)) 0 in
      if currentMessagesInQueue =? 0 then
        perform (SetTimeout TCheckConcurrency CHECK_CONCURRENCY_TIMER);;
        modify (set_maxThreadsCreated 1)
      else
        w <- get;;
        (if (currentMessagesInQueue >? concurrency w)
            && (maxThreadsCreated w <? concurrency w)
         then checkConcurrency_while
         else if currentMessagesInQueue <? maxThreadsCreated w
         then modify (set_maxThreadsCreated currentMessagesInQueue)
         else ret tt);;
        perform (SetTimeout TCheckConcurrency CHECK_CONCURRENCY_TIMER)
  end.

(** [.catch((err) => ...)] of [checkConcurrency] and of [start]:
    [emit('error', 'start_error', new ErrorMessage(err, 'start_error', null))]. *)
Definition reasonValue (r : Reason) : JsValue :=
  match r with
  | ReasonErrorMessage e => originalAzureError e
  | ReasonValue v => v
  end.

Definition checkConcurrency_catch (err : Reason) : M unit :=
  perform (EmitStartError (mkErrorMessage (reasonValue err) START_ERROR None));;
  perform (SetTimeout TCheckConcurrency CHECK_CONCURRENCY_TIMER).

Definition checkConcurrency_settled (s : Settlement (option QueueData)) : M unit :=
  match s with
  | Resolved qd => checkConcurrency_then qd
  | Rejected err => checkConcurrency_catch err
  end.

(** [start()], up to the call of [getQueueData]. *)
Definition start : M unit :=
  perform (CallListQueues AtStart).

(** [.then((queueData) => ...)] of [start]. *)
Definition start_then (qd : option QueueData) : M Completion :=
  match qd with
  | None =>
      w <- get;;
      perform (EmitError (queueNotFound w));;
      ret Normal
  | Some qd =>
      modify (set_queueData (Some qd));;
      c <- startReceivingMessages;;
      match c with
      | Throw r => ret (Throw r)
      | Normal =>
          perform (SetTimeout TStartChecker CHECK_CONCURRENCY_TIMER);;
          ret Normal
      end
  end.

Definition start_catch (err : Reason) : M unit :=
  perform (EmitStartError (mkErrorMessage (reasonValue err) START_ERROR None)).

Definition start_settled (s : Settlement (option QueueData)) : M unit :=
  match s with
  | Resolved qd =>
      c <- start_then qd;;
      match c with
      | Normal => ret tt
      | Throw r => start_catch r
      end
  | Rejected err => start_catch err
  end.

(** The timer armed by [start]. *)
Definition startChecker : M unit :=
  perform (EmitDebug "starting concurrency checker");;
  checkConcurrency.

(** ** The event loop around the watcher *)

(** What the outside world still owes the watcher: armed timers, calls on
    the client whose callback has not run, and [done] callbacks handed to
    the message handler. *)
Inductive Pending : Type :=
| PTimer (t : Task) (delay : Z)
| PListQueues (site : LookupSite)
| PReceive
| PUnlock (m : option Message)
| PDelete (m : option Message)
| PDone (m : option Message).

Definition pendingOf (e : Effect) : list Pending :=
  match e with
  | SetTimeout t delay => [PTimer t delay]
  | CallListQueues site => [PListQueues site]
  | CallReceive => [PReceive]
  | CallUnlock m => [PUnlock m]
  | CallDelete m => [PDelete m]
  | CallHandler m => [PDone m]
  | EmitError _ | EmitStartError _ | EmitDebug _ => []
  end.

(** One turn of the event loop. *)
Inductive Event : Type :=
| EvStart
| EvTimer (t : Task) (delay : Z)
| EvListQueues (site : LookupSite) (err : JsValue) (remoteQueues : option (list QueueData))
| EvReceive (now now' : Z) (err : JsValue) (message : option Message)
| EvDone (m : option Message) (err : JsValue)
| EvUnlock (m : option Message) (err : JsValue)
| EvDelete (m : option Message) (err : JsValue).

(** The code run by a turn. *)
Definition handle (ev : Event) : M unit :=
  match ev with
  | EvStart => start
  | EvTimer TReadOneMessage _ => readOneMessage
  | EvTimer TStartChecker _ => startChecker
  | EvTimer TCheckConcurrency _ => checkConcurrency
  | EvListQueues AtStart err remoteQueues =>
      w <- get;;
      start_settled (getQueueData_callback (queueName w) err remoteQueues)
  | EvListQueues AtCheckConcurrency err remoteQueues =>
      w <- get;;
      checkConcurrency_settled (getQueueData_callback (queueName w) err remoteQueues)
  | EvReceive now now' err message => readOneMessage_callback now now' err message
  | EvDone m err => done m err
  | EvUnlock m err => done_unlock_settled (unlockMessage_callback m err)
  | EvDelete m err => done_remove_settled (removeMessage_callback m err)
  end.

(** What a turn waits for.  [start()] is a call of the embedder and waits
    for nothing. *)
Definition awaited (ev : Event) : option Pending :=
  match ev with
  | EvStart => None
  | EvTimer t delay => Some (PTimer t delay)
  | EvListQueues site _ _ => Some (PListQueues site)
  | EvReceive _ _ _ _ => Some PReceive
  | EvDone m _ => Some (PDone m)
  | EvUnlock m _ => Some (PUnlock m)
  | EvDelete m _ => Some (PDelete m)
  end.

(** A timer fires once and a client callback runs once; [done] is not
    guarded and stays callable. *)
Definition consumed (p : Pending) : bool :=
  match p with
  | PDone _ => false
  | _ => true
  end.

Definition Pending_eq_dec (p q : Pending) : {p = q} + {p <> q}.
Proof.
  repeat decide equality.
Defined.

Fixpoint removeFirst (p : Pending) (l : list Pending) : list Pending :=
  match l with
  | [] => []
  | q :: r => if Pending_eq_dec p q then r else q :: removeFirst p r
  end.

Record System : Type := mkSystem {
  watcher : Watcher;
  pending : list Pending;
  log : list Effect
}.

(** [new ServiceBusAzureWatcher(serviceBus, name, c)] *)
Definition boot (name : string) (c : option Z) : System :=
  {| watcher := newWatcher name c; pending := []; log := [] |}.

Definition enabled (s : System) (ev : Event) : bool :=
  match awaited ev with
  | None => true
  | Some p => if in_dec Pending_eq_dec p (pending s) then true else false
  end.

Definition step (s : System) (ev : Event) : option System :=
  if enabled s ev then
    let r := handle ev (watcher s) in
    let rest :=
      match awaited ev with
      | Some p => if consumed p then removeFirst p (pending s) else pending s
      | None => pending s
      end in
    Some {| watcher := stateOf r;
            pending := rest ++ flat_map pendingOf (effectsOf r);
            log := log s ++ effectsOf r |}
  else None.

Fixpoint run (s : System) (evs : list Event) : option System :=
  match evs with
  | [] => Some s
  | ev :: rest =>
      match step s ev with
      | Some s' => run s' rest
      | None => None
      end
  end.

Inductive reachable (name : string) (c : option Z) : System -> Prop :=
| reachable_boot : reachable name c (boot name c)
| reachable_step (s s' : System) (ev : Event) :
    reachable name c s -> step s ev = Some s' -> reachable name c s'.

(** ** Reading the effect log *)

(** Error events published on the bus. *)
Definition errorEvent (e : Effect) : option ErrorMessage :=
  match e with
  | EmitError m => Some m
  | EmitStartError m => Some m
  | _ => None
  end.

Fixpoint errorEvents (l : list Effect) : list ErrorMessage :=
  match l with
  | [] => []
  | e :: r =>
      match errorEvent e with
      | Some m => m :: errorEvents r
      | None => errorEvents r
      end
  end.

Definition isReceive (e : Effect) : bool :=
  match e with CallReceive => true | _ => false end.

Definition isUnlock (e : Effect) : bool :=
  match e with CallUnlock _ => true | _ => false end.

Definition isDelete (e : Effect) : bool :=
  match e with CallDelete _ => true | _ => false end.


(** Delays of the [readOneMessage] timers armed, in program order. *)
Fixpoint workerDelays (l : list Effect) : list Z :=
  match l with
  | [] => []
  | SetTimeout TReadOneMessage delay :: r => delay :: workerDelays r
  | _ :: r => workerDelays r
  end.

Definition count (f : Effect -> bool) (l : list Effect) : nat :=
  List.length (filter f l).

(** Delay of the [k]-th worker as the specification describes it. *)
Definition staggeredDelay (k : nat) : Z := 25 * Z.of_nat k.

(** State on entry of the branch taken by [startReceivingMessages]. *)
Definition spinUpEntry (w : Watcher) : Watcher :=
  set_maxThreadsCreated 0 (set_isStartRunning true w).

(** The ceiling is never rewritten and the counter stays at or below it. *)
Definition ceilingRespected (c : Z) (w : Watcher) : Prop :=
  concurrency w = c /\ maxThreadsCreated w <= c.

(** A state reached by a list of turns from a fresh watcher; a turn that is
    not enabled leaves the fresh watcher. *)
Definition runFromBoot (name : string) (c : option Z) (evs : list Event) : System :=
  match run (boot name c) evs with
  | Some s => s
  | None => boot name c
  end.

Definition statusIn (l : list string) (e : ErrorMessage) : bool :=
  existsb (String.eqb (status e)) l.



(** What the handlers behind [getQueueData] may do. *)
Definition lookupSettledEffect (e : Effect) : bool :=
  match e with
  | CallReceive | SetTimeout _ _ => true
  | EmitError m => statusIn [QUEUE_NOT_FOUND; MAX_THREADS_EXCEEDED] m
  | EmitStartError m => statusIn [START_ERROR] m
  | _ => false
  end.

(** More readers of the effect log. *)
Definition isHandler (e : Effect) : bool :=
  match e with CallHandler _ => true | _ => false end.


Definition isRetryTimer (e : Effect) : bool :=
  match e with SetTimeout TReadOneMessage delay => delay =? 500 | _ => false end.


Definition isStartError (e : Effect) : bool :=
  match e with EmitStartError _ => true | _ => false end.

Definition hasStatus (st : string) (e : Effect) : bool :=
  match errorEvent e with
  | Some m => String.eqb (status m) st
  | None => false
  end.

(** A turn in which the client reports no negative message count. *)
Definition backlogsNonNegative (ev : Event) : bool :=
  match ev with
  | EvListQueues _ _ (Some qs) => forallb (fun q => 0 <=? activeMessageCount q) qs
  | _ => true
  end.

Definition isPReceive (p : Pending) : bool :=
  match p with PReceive => true | _ => false end.

(** Effects that neither complete a message nor hand one to the handler. *)
Definition quietEffect (e : Effect) : bool :=
  negb (isDelete e || isUnlock e || isHandler e).

(** Every delete or unlock call in a log comes after the call that handed
    the same message to the handler. *)
Definition completionsFollowHandler (l : list Effect) : Prop :=
  forall (l1 l2 : list Effect) (e : Effect) (m : option Message),
    l = l1 ++ e :: l2 ->
    e = CallDelete m \/ e = CallUnlock m ->
    In (CallHandler m) l1.



(** ** Runs used as examples *)

(** A ceiling of five, a backlog of eight at start, three workers started,
    one message received. *)
Definition busyQueue : QueueData := mkQueueData "orders" "8".

Definition busyRun : list Event :=
  [EvStart;
   EvListQueues AtStart JsNull (Some [mkQueueData "other" "0"; busyQueue]);
   EvTimer TReadOneMessage 25;
   EvTimer TReadOneMessage 25;
   EvTimer TReadOneMessage 25;
   EvReceive 1000 1000 JsNull (Some 7%nat)].

(** The scenario of the specification: ceiling 5, empty queue at start, so
    one worker; the next tick reads a backlog of 8. *)
Definition quietThenBusy : list Event :=
  [EvStart;
   EvListQueues AtStart JsNull (Some [mkQueueData "orders" "0"]);
   EvTimer TStartChecker 10000].

(** Two workers; message 1 arrives at 1000, message 2 at 1500; then the
    handler completes message 1 and its delete succeeds. *)
Definition twoWorkers : list Event :=
  [EvStart;
   EvListQueues AtStart JsNull (Some [mkQueueData "orders" "2"]);
   EvTimer TReadOneMessage 25;
   EvTimer TReadOneMessage 25;
   EvReceive 1000 1000 JsNull (Some 1%nat);
   EvReceive 1500 1500 JsNull (Some 2%nat)].

Definition firstCompleted : list Event :=
  twoWorkers ++ [EvDone (Some 1%nat) JsNull; EvDelete (Some 1%nat) JsNull].

(** A run that publishes two errors: an unlock that meets an expired lock
    and a receive that times out. *)
Definition faultyRun : list Event :=
  busyRun ++
  [EvDone (Some 7%nat) (JsString "handler failed");
   EvUnlock (Some 7%nat) (JsObject (CodeString "404"));
   EvReceive 2000 2000 (JsString "ETIMEDOUT") None].

(** A watcher built with a ceiling of zero, an empty queue, one tick. *)
Definition zeroCeilingRun : list Event :=
  [EvStart;
   EvListQueues AtStart JsNull (Some [mkQueueData "orders" "0"]);
   EvTimer TStartChecker 10000;
   EvListQueues AtCheckConcurrency JsNull (Some [mkQueueData "orders" "0"])].

(** ** Proofs *)

Ltac unfold_m :=
  unfold startChecker, start, checkConcurrency, checkConcurrency_settled,
    checkConcurrency_catch, start_settled, start_catch, start_then,
    readOneMessage_callback, done_unlock_settled, done_remove_settled, done,
    checkConcurrency_body, readOneMessage,
    bind, ret, get, modify, perform, stateOf, effectsOf, valueOf in *;
  cbn [fst snd] in *.

Section ReadOneMessage.

Variable w : Watcher.

Lemma readOneMessage_clamps :
  maxThreadsCreated w > concurrency w ->
  readOneMessage w =
    (tt, set_maxThreadsCreated (concurrency w) w,
     [EmitError (mkErrorMessage (JsString MAX_THREADS_EXCEEDED) MAX_THREADS_EXCEEDED None)]).
Proof.
  intros Hgt. unfold_m.
  destruct (Z.gtb_spec (maxThreadsCreated w) (concurrency w)); [reflexivity | lia].
Qed.

Lemma readOneMessage_receives :
  maxThreadsCreated w <= concurrency w ->
  readOneMessage w = (tt, w, [CallReceive]).
Proof.
  intros Hle. unfold_m.
  destruct (Z.gtb_spec (maxThreadsCreated w) (concurrency w)); [lia | reflexivity].
Qed.

End ReadOneMessage.

Lemma checkConcurrency_body_spec (w : Watcher) :
  maxThreadsCreated w < concurrency w ->
  checkConcurrency_body w =
    (tt, set_maxThreadsCreated (maxThreadsCreated w + 1) w, [CallReceive]).
Proof.
  intros Hlt. unfold checkConcurrency_body, bind, modify, stateOf, effectsOf, valueOf.
  cbn [fst snd]. rewrite readOneMessage_receives by (cbn; lia). reflexivity.
Qed.

(** The monitor's loop runs [concurrency - maxThreadsCreated] times, calls
    [receiveQueueMessage] once per round and stops with the counter on the
    ceiling. *)
Lemma checkConcurrency_while_spec (w : Watcher) :
  maxThreadsCreated w <= concurrency w ->
  checkConcurrency_while w =
    (tt, set_maxThreadsCreated (concurrency w) w,
     repeat CallReceive (Z.to_nat (concurrency w - maxThreadsCreated w))).
Proof.
  funelim (checkConcurrency_while w); intros Hle.
  - clear Heqcall. pose proof (proj1 (Z.ltb_lt _ _) e) as Hlt.
    rewrite checkConcurrency_body_spec in * by assumption.
    unfold stateOf, effectsOf in *. cbn [fst snd] in *.
    rewrite H by (cbn; lia). cbn [fst snd concurrency maxThreadsCreated set_maxThreadsCreated].
    replace (Z.to_nat (concurrency w - maxThreadsCreated w))
      with (S (Z.to_nat (concurrency w - (maxThreadsCreated w + 1)))) by lia.
    reflexivity.
  - clear Heqcall. pose proof (proj1 (Z.ltb_ge _ _) e) as Hge.
    assert (Heq : maxThreadsCreated w = concurrency w) by lia.
    rewrite <- Heq, Z.sub_diag. cbn. destruct w; reflexivity.
Qed.

(** The spin-up loop runs while both [maxCallsInvoked] and the counter stay
    below [min concurrency currentMessagesInQueue]; every round arms one
    timer with the delay [i + 25]. *)
Lemma startReceivingMessages_while_spec (B i m delay : Z) (w : Watcher) :
  maxThreadsCreated w = m + 1 ->
  stateOf (startReceivingMessages_while B i m delay w)
    = set_maxThreadsCreated
        (maxThreadsCreated w
         + Z.of_nat (Z.to_nat (Z.min (concurrency w) B - maxThreadsCreated w))) w
  /\ effectsOf (startReceivingMessages_while B i m delay w)
    = repeat (SetTimeout TReadOneMessage (i + 25))
        (Z.to_nat (Z.min (concurrency w) B - maxThreadsCreated w)).
Proof.
  funelim (startReceivingMessages_while B i m delay w); intros Hm.
  - clear Heqcall. pose proof e as Hc.
    rewrite !andb_true_iff, !Z.ltb_lt in Hc. destruct Hc as [[Hc1 Hc2] Hc3].
    destruct (H ltac:(cbn; lia)) as [Hst Hef].
    unfold stateOf, effectsOf in *. cbn [fst snd].
    rewrite Hst, Hef. cbn [concurrency maxThreadsCreated set_maxThreadsCreated].
    replace (Z.to_nat (Z.min (concurrency w) currentMessagesInQueue - maxThreadsCreated w))
      with (S (Z.to_nat (Z.min (concurrency w) currentMessagesInQueue
                         - (maxThreadsCreated w + 1)))) by lia.
    split; [| reflexivity].
    unfold set_maxThreadsCreated. cbn. f_equal. lia.
  - clear Heqcall. pose proof e as Hc.
    rewrite !andb_false_iff, !Z.ltb_ge in Hc.
    replace (Z.to_nat (Z.min (concurrency w) currentMessagesInQueue - maxThreadsCreated w))
      with 0%nat by lia.
    cbn. rewrite Z.add_0_r. split; [destruct w |]; reflexivity.
Qed.

Section SpinUp.

Variables (w : Watcher) (qd : QueueData).
Hypothesis Hqd : queueData w = Some qd.

Lemma startReceivingMessages_empty :
  activeMessageCount qd = 0 ->
  startReceivingMessages w =
    (Normal,
     stateOf (readOneMessage (set_maxThreadsCreated 1 (spinUpEntry w))),
     effectsOf (readOneMessage (set_maxThreadsCreated 1 (spinUpEntry w)))).
Proof.
  unfold activeMessageCount. intros HB.
  unfold startReceivingMessages, bind, modify, get, ret, stateOf, effectsOf, valueOf.
  cbn [fst snd queueData set_maxThreadsCreated set_isStartRunning].
  rewrite Hqd, HB. cbn [Z.eqb fst snd app].
  rewrite app_nil_r. reflexivity.
Qed.

Lemma startReceivingMessages_backlog :
  activeMessageCount qd <> 0 ->
  startReceivingMessages w =
    (Normal,
     set_isStartRunning false
       (set_maxThreadsCreated
          (Z.of_nat (Z.to_nat (Z.min (concurrency w) (activeMessageCount qd))))
          (spinUpEntry w)),
     repeat (SetTimeout TReadOneMessage 25)
       (Z.to_nat (Z.min (concurrency w) (activeMessageCount qd)))).
Proof.
  unfold activeMessageCount. intros HB.
  unfold startReceivingMessages, bind, modify, get, ret, stateOf, effectsOf, valueOf.
  cbn [fst snd queueData set_maxThreadsCreated set_isStartRunning].
  rewrite Hqd. apply Z.eqb_neq in HB. rewrite HB.
  fold (spinUpEntry w).
  destruct (startReceivingMessages_while_spec
              (orNumber (parseInt (ActiveMessageCount qd)) 0) 0 (-1) 0 (spinUpEntry w)
              eq_refl) as [Hst Hef].
  destruct (startReceivingMessages_while _ _ _ _ (spinUpEntry w)) as [[v w'] l].
  unfold stateOf, effectsOf in Hst, Hef. cbn [fst snd] in Hst, Hef.
  cbn [maxThreadsCreated concurrency spinUpEntry set_maxThreadsCreated
       set_isStartRunning] in Hst, Hef.
  rewrite Z.sub_0_r in Hst, Hef. subst w' l.
  cbn [fst snd app]. rewrite app_nil_r. reflexivity.
Qed.

End SpinUp.

(** *** The ceiling invariant *)

Section Ceiling.

Variable c : Z.
Hypothesis Hpos : 1 <= c.

Lemma readOneMessage_ceiling (w : Watcher) :
  ceilingRespected c w -> ceilingRespected c (stateOf (readOneMessage w)).
Proof.
  intros [Hc Hle]. rewrite readOneMessage_receives by lia. split; assumption.
Qed.

Lemma startReceivingMessages_ceiling (w : Watcher) (qd : QueueData) :
  concurrency w = c ->
  queueData w = Some qd ->
  ceilingRespected c (stateOf (startReceivingMessages w))
  /\ valueOf (startReceivingMessages w) = Normal.
Proof.
  intros Hc Hqd.
  destruct (Z.eq_dec (activeMessageCount qd) 0) as [HB | HB].
  - rewrite (startReceivingMessages_empty w qd Hqd HB).
    split; [| reflexivity].
    unfold stateOf at 1. cbn [fst snd].
    apply readOneMessage_ceiling. split; cbn; lia.
  - rewrite (startReceivingMessages_backlog w qd Hqd HB).
    split; [| reflexivity].
    split; cbn; lia.
Qed.

Lemma start_settled_ceiling (w : Watcher) (s : Settlement (option QueueData)) :
  ceilingRespected c w -> ceilingRespected c (stateOf (start_settled s w)).
Proof.
  intros [Hc Hle].
  destruct s as [[qd |] | r]; try (split; assumption).
  unfold start_settled, start_then, bind, modify, stateOf, valueOf. cbn [fst snd].
  destruct (startReceivingMessages_ceiling (set_queueData (Some qd) w) qd Hc eq_refl)
    as [Hinv Hnormal].
  unfold stateOf, valueOf in Hinv, Hnormal. rewrite Hnormal. exact Hinv.
Qed.

Lemma checkConcurrency_then_ceiling (w : Watcher) (qd : option QueueData) :
  ceilingRespected c w -> ceilingRespected c (stateOf (checkConcurrency_then qd w)).
Proof.
  intros [Hc Hle].
  destruct qd as [qd |]; [| split; assumption].
  unfold checkConcurrency_then, bind, modify, get, perform, stateOf, valueOf.
  cbn [fst snd].
  destruct (Z.eqb_spec (orNumber (parseInt (ActiveMessageCount qd)) 0) 0) as [HB | HB].
  - split; cbn; lia.
  - cbn [fst snd concurrency maxThreadsCreated set_queueData].
    destruct ((orNumber (parseInt (ActiveMessageCount qd)) 0 >? concurrency w)
              && (maxThreadsCreated w <? concurrency w)).
    + rewrite checkConcurrency_while_spec by (cbn; lia). split; cbn; lia.
    + destruct (Z.ltb_spec (orNumber (parseInt (ActiveMessageCount qd)) 0)
                  (maxThreadsCreated w)); split; cbn; lia.
Qed.

Lemma done_settled_ceiling (w : Watcher) (s : Settlement unit) :
  ceilingRespected c w ->
  ceilingRespected c (stateOf (done_unlock_settled s w))
  /\ ceilingRespected c (stateOf (done_remove_settled s w)).
Proof.
  intros Hinv.
  destruct s as [[] | r]; cbn [done_unlock_settled done_remove_settled].
  - split; apply readOneMessage_ceiling; assumption.
  - assert (Hset : ceilingRespected c (set_lastJobErrorDone (Some r) w))
      by (destruct Hinv; split; assumption).
    pose proof (readOneMessage_ceiling _ Hset) as Hr.
    unfold bind, modify, stateOf, valueOf in *. cbn [fst snd] in *.
    destruct (instanceofErrorMessage r); cbn [fst snd perform ret]; split; exact Hr.
Qed.

Lemma handle_ceiling (ev : Event) (w : Watcher) :
  ceilingRespected c w -> ceilingRespected c (stateOf (handle ev w)).
Proof.
  intros Hinv.
  destruct ev as [| [| |] delay | [|] err remoteQueues | now now' err message
                  | m err | m err | m err]; cbn [handle].
  - exact Hinv.
  - apply readOneMessage_ceiling; exact Hinv.
  - unfold startChecker, checkConcurrency, bind, get, perform, ret, stateOf, valueOf.
    cbn [fst snd]. destruct (queueData w); exact Hinv.
  - unfold checkConcurrency, bind, get, perform, ret, stateOf, valueOf.
    cbn [fst snd]. destruct (queueData w); exact Hinv.
  - unfold bind at 1. unfold get, stateOf at 1, valueOf. cbn [fst snd].
    apply start_settled_ceiling; exact Hinv.
  - unfold bind at 1. unfold get, stateOf at 1, valueOf. cbn [fst snd].
    destruct (getQueueData_callback (queueName w) err remoteQueues) as [qd | r];
      cbn [checkConcurrency_settled].
    + apply checkConcurrency_then_ceiling; exact Hinv.
    + destruct Hinv; split; assumption.
  - destruct Hinv as [Hc Hle].
    unfold readOneMessage_callback, bind, modify, perform, stateOf, valueOf.
    cbn [fst snd].
    destruct (strictEqString err AZURE_NO_MESSAGES); [split; assumption |].
    destruct (truthy err); split; assumption.
  - unfold done. destruct (truthy err); exact Hinv.
  - apply done_settled_ceiling; exact Hinv.
  - apply done_settled_ceiling; exact Hinv.
Qed.

End Ceiling.

Lemma step_watcher (s s' : System) (ev : Event) :
  step s ev = Some s' -> watcher s' = stateOf (handle ev (watcher s)).
Proof.
  unfold step. destruct (enabled s ev); [| discriminate].
  intros H. injection H as <-. reflexivity.
Qed.

Lemma step_log (s s' : System) (ev : Event) :
  step s ev = Some s' -> log s' = log s ++ effectsOf (handle ev (watcher s)).
Proof.
  unfold step. destruct (enabled s ev); [| discriminate].
  intros H. injection H as <-. reflexivity.
Qed.

Lemma reachable_ceiling (name : string) (c : option Z) (s : System) :
  1 <= concurrency (newWatcher name c) ->
  reachable name c s ->
  ceilingRespected (concurrency (newWatcher name c)) (watcher s).
Proof.
  intros Hpos Hreach. induction Hreach as [| s s' ev _ IH Hstep].
  - split; [reflexivity |]. cbn [boot watcher newWatcher maxThreadsCreated concurrency] in *.
    lia.
  - rewrite (step_watcher _ _ _ Hstep). apply handle_ceiling; assumption.
Qed.

Lemma run_reachable (name : string) (c : option Z) (evs : list Event) :
  forall s s', reachable name c s -> run s evs = Some s' -> reachable name c s'.
Proof.
  induction evs as [| ev evs IH]; intros s s' Hreach Hrun; cbn [run] in Hrun.
  - injection Hrun as <-. exact Hreach.
  - destruct (step s ev) as [s1 |] eqn:Hstep; [| discriminate].
    apply (IH s1); [| exact Hrun].
    apply (reachable_step _ _ s s1 ev); assumption.
Qed.

(** The ceiling has to be positive for the invariant: the monitor writes
    the constant 1 into the counter when the queue is empty. *)
Remark zero_ceiling_is_exceeded :
  run (boot "orders" (Some 0)) zeroCeilingRun
    = Some (runFromBoot "orders" (Some 0) zeroCeilingRun)
  /\ concurrency (watcher (runFromBoot "orders" (Some 0) zeroCeilingRun)) = 0
  /\ maxThreadsCreated (watcher (runFromBoot "orders" (Some 0) zeroCeilingRun)) = 1.
Proof.
  repeat (match goal with |- _ /\ _ => split end); vm_compute; reflexivity.
Qed.

(** A timer for [readOneMessage] that fires in a reachable state of a
    watcher with a positive ceiling issues exactly one receive call. *)
Lemma worker_timer_receives (name : string) (c : option Z) (s : System) (delay : Z) :
  1 <= concurrency (newWatcher name c) ->
  reachable name c s ->
  effectsOf (handle (EvTimer TReadOneMessage delay) (watcher s)) = [CallReceive].
Proof.
  intros Hpos Hreach.
  destruct (reachable_ceiling name c s Hpos Hreach) as [Hc Hle].
  cbn [handle]. rewrite readOneMessage_receives by lia. reflexivity.
Qed.

(** *** Completion: [done], [unlockMessage], [removeMessage] *)

Lemma notFound_is_object (err : JsValue) :
  isObject err && codeIs err "404" = codeIs err "404".
Proof.
  destruct err as [| s | code]; reflexivity.
Qed.

Section Completion.

Variables (w : Watcher) (m : option Message) (err : JsValue).
Hypothesis Hle : maxThreadsCreated w <= concurrency w.

Lemma settled_tail (r : option Reason) :
  readOneMessage
    (match r with Some x => set_lastJobErrorDone (Some x) w | None => w end)
  = (tt, match r with Some x => set_lastJobErrorDone (Some x) w | None => w end,
     [CallReceive]).
Proof.
  apply readOneMessage_receives. destruct r; cbn; exact Hle.
Qed.

Lemma done_remove_settled_effects :
  effectsOf (done_remove_settled (removeMessage_callback m err) w)
  = if codeIs err "404"
    then [EmitError (mkErrorMessage err ON_REMOVE_MESSAGE_FROM_AZURE m); CallReceive]
    else [CallReceive].
Proof.
  unfold removeMessage_callback. rewrite notFound_is_object.
  destruct (codeIs err "404").
  - cbn [done_remove_settled instanceofErrorMessage].
    unfold bind, modify, perform, stateOf, effectsOf, valueOf. cbn [fst snd].
    rewrite (settled_tail (Some _)). reflexivity.
  - destruct (truthy err).
    + cbn [done_remove_settled instanceofErrorMessage].
      unfold bind, modify, ret, stateOf, effectsOf, valueOf. cbn [fst snd].
      rewrite (settled_tail (Some _)). reflexivity.
    + cbn [done_remove_settled]. rewrite (settled_tail None). reflexivity.
Qed.

Lemma done_unlock_settled_effects :
  effectsOf (done_unlock_settled (unlockMessage_callback m err) w)
  = if codeIs err "404"
    then [EmitError (mkErrorMessage err ON_UNLOCK_MESSAGE_FROM_AZURE m); CallReceive]
    else [CallReceive].
Proof.
  unfold unlockMessage_callback. rewrite notFound_is_object.
  destruct (codeIs err "404").
  - cbn [done_unlock_settled instanceofErrorMessage].
    unfold bind, modify, perform, stateOf, effectsOf, valueOf. cbn [fst snd].
    rewrite (settled_tail (Some _)). reflexivity.
  - destruct (truthy err).
    + cbn [done_unlock_settled instanceofErrorMessage].
      unfold bind, modify, ret, stateOf, effectsOf, valueOf. cbn [fst snd].
      rewrite (settled_tail (Some _)). reflexivity.
    + cbn [done_unlock_settled]. rewrite (settled_tail None). reflexivity.
Qed.

End Completion.

Lemma runFromBoot_reachable (name : string) (c : option Z) (evs : list Event) :
  reachable name c (runFromBoot name c evs).
Proof.
  unfold runFromBoot. destruct (run (boot name c) evs) as [s |] eqn:Hrun.
  - apply (run_reachable name c evs (boot name c)); [constructor | exact Hrun].
  - constructor.
Qed.

(** ** The claims *)

(** C1.  With a positive ceiling, in every state the event loop can reach
    [maxThreadsCreated] is at most [concurrency]; and a call of
    [readOneMessage] that finds the counter above the ceiling puts the
    counter back on the ceiling, emits one error event of status
    [max_threads_exceeded] and does nothing else, so no receive call. *)
Theorem C1_counter_within_ceiling (name : string) (c : option Z) (s : System) :
  1 <= concurrency (newWatcher name c) ->
  reachable name c s ->
  concurrency (watcher s) = concurrency (newWatcher name c)
  /\ maxThreadsCreated (watcher s) <= concurrency (watcher s)
  /\ forall w : Watcher,
       maxThreadsCreated w > concurrency w ->
       readOneMessage w =
         (tt, set_maxThreadsCreated (concurrency w) w,
          [EmitError (mkErrorMessage (JsString "max_threads_exceeded")
                        "max_threads_exceeded" None)]).
Proof.
  intros Hpos Hreach.
  destruct (reachable_ceiling name c s Hpos Hreach) as [Hc Hle].
  split; [exact Hc |]. split; [lia |].
  intros w Hgt. apply readOneMessage_clamps. exact Hgt.
Qed.

Lemma C1_counter_within_ceiling_witness :
  maxThreadsCreated (watcher (runFromBoot "orders" (Some 5) busyRun)) = 5
  /\ maxThreadsCreated (watcher (runFromBoot "orders" (Some 5) busyRun))
     <= concurrency (watcher (runFromBoot "orders" (Some 5) busyRun)).
Proof.
  split; [reflexivity |].
  apply (C1_counter_within_ceiling "orders" (Some 5) (runFromBoot "orders" (Some 5) busyRun)).
  - cbn. lia.
  - apply runFromBoot_reachable.
Defined.



(** C3.  With a positive ceiling and in any reachable state: when a delete
    or unlock call fails (its callback gets a truthy error), the handler
    publishes exactly one error event if the error is an object whose code
    is the string 404, of status [on_remove_unlock_message_from_azure] for
    delete and [on_unlock_message_from_azure] for unlock, carrying the
    message; for every other failure it publishes none. *)
Theorem C3_only_404_failures_published (name : string) (c : option Z) (s : System)
    (m : option Message) (err : JsValue) :
  1 <= concurrency (newWatcher name c) ->
  reachable name c s ->
  truthy err = true ->
  (codeIs err "404" = true ->
     errorEvents (effectsOf (done_remove_settled (removeMessage_callback m err) (watcher s)))
       = [mkErrorMessage err "on_remove_unlock_message_from_azure" m]
     /\ errorEvents (effectsOf (done_unlock_settled (unlockMessage_callback m err) (watcher s)))
       = [mkErrorMessage err "on_unlock_message_from_azure" m])
  /\ (codeIs err "404" = false ->
     errorEvents (effectsOf (done_remove_settled (removeMessage_callback m err) (watcher s)))
       = []
     /\ errorEvents (effectsOf (done_unlock_settled (unlockMessage_callback m err) (watcher s)))
       = []).
Proof.
  intros Hpos Hreach _.
  destruct (reachable_ceiling name c s Hpos Hreach) as [Hc Hle].
  rewrite <- Hc in Hle.
  rewrite done_remove_settled_effects, done_unlock_settled_effects by exact Hle.
  split; intros H404; rewrite H404; split; reflexivity.
Qed.

Lemma C3_only_404_failures_published_witness :
  errorEvents
    (effectsOf (done_remove_settled
                  (removeMessage_callback (Some 7%nat) (JsObject (CodeString "404")))
                  (watcher (runFromBoot "orders" (Some 5) busyRun))))
  = [mkErrorMessage (JsObject (CodeString "404"))
       "on_remove_unlock_message_from_azure" (Some 7%nat)]
  /\ errorEvents
       (effectsOf (done_unlock_settled
                     (unlockMessage_callback (Some 7%nat) (JsObject (CodeNumber 404)))
                     (watcher (runFromBoot "orders" (Some 5) busyRun))))
     = [].
Proof.
  split.
  - apply (C3_only_404_failures_published "orders" (Some 5)
             (runFromBoot "orders" (Some 5) busyRun) (Some 7%nat)
             (JsObject (CodeString "404"))
             ltac:(cbn; lia) (runFromBoot_reachable _ _ _) eq_refl).
    reflexivity.
  - apply (C3_only_404_failures_published "orders" (Some 5)
             (runFromBoot "orders" (Some 5) busyRun) (Some 7%nat)
             (JsObject (CodeNumber 404))
             ltac:(cbn; lia) (runFromBoot_reachable _ _ _) eq_refl).
    reflexivity.
Defined.

(** *** Spin-up *)

Lemma workerDelays_repeat (d : Z) (n : nat) :
  workerDelays (repeat (SetTimeout TReadOneMessage d) n) = repeat d n.
Proof.
  induction n as [| n IH]; [reflexivity |]. cbn. rewrite IH. reflexivity.
Qed.

Lemma count_isReceive_timers (d : Z) (n : nat) :
  count isReceive (repeat (SetTimeout TReadOneMessage d) n) = 0%nat.
Proof.
  induction n as [| n IH]; [reflexivity | exact IH].
Qed.

Lemma count_isReceive_repeat (n : nat) :
  count isReceive (repeat CallReceive n) = n.
Proof.
  induction n as [| n IH]; [reflexivity |].
  unfold count in *. cbn. rewrite IH. reflexivity.
Qed.

(** C4.  Spin-up with a captured snapshot of backlog [B] and a positive
    ceiling [C].  If [B = 0] the effects of [startReceivingMessages] are
    those of one direct call of [readOneMessage], which is one receive call
    and no timer.  If [B > 0] it arms exactly [min C B] timers for
    [readOneMessage], makes no direct call and has no other effect. *)
Theorem C4_spin_up_launch_count (w : Watcher) (qd : QueueData) :
  queueData w = Some qd ->
  1 <= concurrency w ->
  (activeMessageCount qd = 0 ->
     effectsOf (startReceivingMessages w)
       = effectsOf (readOneMessage (set_maxThreadsCreated 1 (spinUpEntry w)))
     /\ effectsOf (startReceivingMessages w) = [CallReceive])
  /\ (0 < activeMessageCount qd ->
     Z.of_nat (List.length (workerDelays (effectsOf (startReceivingMessages w))))
       = Z.min (concurrency w) (activeMessageCount qd)
     /\ List.length (effectsOf (startReceivingMessages w))
       = List.length (workerDelays (effectsOf (startReceivingMessages w)))
     /\ count isReceive (effectsOf (startReceivingMessages w)) = 0%nat).
Proof.
  intros Hqd Hpos. split.
  - intros HB. rewrite (startReceivingMessages_empty w qd Hqd HB).
    split; [reflexivity |].
    unfold effectsOf at 1. cbn [snd].
    rewrite readOneMessage_receives by (cbn; lia). reflexivity.
  - intros HB.
    rewrite (startReceivingMessages_backlog w qd Hqd) by lia.
    unfold effectsOf. cbn [snd].
    rewrite workerDelays_repeat, count_isReceive_timers, !repeat_length.
    repeat split. lia.
Qed.

Lemma C4_spin_up_launch_count_witness :
  effectsOf (startReceivingMessages
               (set_queueData (Some (mkQueueData "orders" "0")) (newWatcher "orders" (Some 5))))
    = [CallReceive]
  /\ Z.of_nat (List.length (workerDelays (effectsOf (startReceivingMessages
       (set_queueData (Some (mkQueueData "orders" "3")) (newWatcher "orders" (Some 5)))))))
     = 3
  /\ Z.of_nat (List.length (workerDelays (effectsOf (startReceivingMessages
       (set_queueData (Some (mkQueueData "orders" "8")) (newWatcher "orders" (Some 5)))))))
     = 5.
Proof.
  split; [| split].
  - apply (C4_spin_up_launch_count
             (set_queueData (Some (mkQueueData "orders" "0")) (newWatcher "orders" (Some 5)))
             (mkQueueData "orders" "0") eq_refl ltac:(cbn; lia)).
    reflexivity.
  - apply (C4_spin_up_launch_count
             (set_queueData (Some (mkQueueData "orders" "3")) (newWatcher "orders" (Some 5)))
             (mkQueueData "orders" "3") eq_refl ltac:(cbn; lia)).
    reflexivity.
  - apply (C4_spin_up_launch_count
             (set_queueData (Some (mkQueueData "orders" "8")) (newWatcher "orders" (Some 5)))
             (mkQueueData "orders" "8") eq_refl ltac:(cbn; lia)).
    reflexivity.
Defined.

(** Every timer armed by the spin-up loop has the delay [0 + 25]: [i] is
    never changed. *)
Lemma spin_up_delays_constant (w : Watcher) (qd : QueueData) :
  queueData w = Some qd ->
  activeMessageCount qd <> 0 ->
  workerDelays (effectsOf (startReceivingMessages w))
    = repeat 25 (Z.to_nat (Z.min (concurrency w) (activeMessageCount qd))).
Proof.
  intros Hqd HB. rewrite (startReceivingMessages_backlog w qd Hqd HB).
  unfold effectsOf. cbn [snd]. apply workerDelays_repeat.
Qed.

(** C5.  The code at a ceiling of three and a backlog of three: the three
    workers are all armed with a delay of 25 ms, where the claim asks for
    0, 25 and 50 ms. *)
Theorem C5_spin_up_delays_not_staggered :
  let w := set_queueData (Some (mkQueueData "orders" "3")) (newWatcher "orders" (Some 3)) in
  workerDelays (effectsOf (startReceivingMessages w)) = [25; 25; 25]
  /\ map staggeredDelay [0%nat; 1%nat; 2%nat] = [0; 25; 50]
  /\ workerDelays (effectsOf (startReceivingMessages w))
     <> map staggeredDelay [0%nat; 1%nat; 2%nat].
Proof.
  cbv zeta. split; [reflexivity |]. split; [reflexivity |].
  intros Heq. vm_compute in Heq. discriminate Heq.
Qed.

(** *** The concurrency monitor *)

(** C6.  A tick of the monitor that reads a backlog above a positive ceiling
    while the counter is below the ceiling calls [receiveQueueMessage]
    directly once per missing worker (no timer for [readOneMessage] is
    armed), leaves the counter on the ceiling and re-arms the monitor. *)
Theorem C6_monitor_fills_up_to_ceiling (w : Watcher) (qd : QueueData) :
  1 <= concurrency w ->
  activeMessageCount qd > concurrency w ->
  maxThreadsCreated w < concurrency w ->
  maxThreadsCreated (stateOf (checkConcurrency_then (Some qd) w)) = concurrency w
  /\ concurrency (stateOf (checkConcurrency_then (Some qd) w)) = concurrency w
  /\ effectsOf (checkConcurrency_then (Some qd) w)
     = repeat CallReceive (Z.to_nat (concurrency w - maxThreadsCreated w))
       ++ [SetTimeout TCheckConcurrency 10000]
  /\ Z.of_nat (count isReceive (effectsOf (checkConcurrency_then (Some qd) w)))
     = concurrency w - maxThreadsCreated w
  /\ workerDelays (effectsOf (checkConcurrency_then (Some qd) w)) = [].
Proof.
  unfold activeMessageCount. intros Hpos HB Hlt.
  assert (Heff : checkConcurrency_then (Some qd) w
                 = (tt, set_maxThreadsCreated (concurrency w) (set_queueData (Some qd) w),
                    repeat CallReceive (Z.to_nat (concurrency w - maxThreadsCreated w))
                      ++ [SetTimeout TCheckConcurrency 10000])).
  { unfold checkConcurrency_then, bind, modify, get, perform, stateOf, effectsOf, valueOf.
    cbn [fst snd].
    destruct (Z.eqb_spec (orNumber (parseInt (ActiveMessageCount qd)) 0) 0) as [H0 | H0];
      [lia |].
    cbn [fst snd concurrency maxThreadsCreated set_queueData].
    destruct (Z.gtb_spec (orNumber (parseInt (ActiveMessageCount qd)) 0) (concurrency w));
      [| lia].
    destruct (Z.ltb_spec (maxThreadsCreated w) (concurrency w)); [| lia].
    cbn [andb]. rewrite checkConcurrency_while_spec by (cbn; lia).
    reflexivity. }
  rewrite Heff. clear Heff. unfold stateOf, effectsOf. cbn [fst snd].
  split; [reflexivity |]. split; [reflexivity |]. split; [reflexivity |].
  split.
  - unfold count. rewrite filter_app, length_app. fold (count isReceive (repeat CallReceive
      (Z.to_nat (concurrency w - maxThreadsCreated w)))).
    rewrite count_isReceive_repeat. cbn. lia.
  - induction (Z.to_nat (concurrency w - maxThreadsCreated w)) as [| n IH];
      [reflexivity | exact IH].
Qed.

Lemma C6_monitor_fills_up_to_ceiling_witness :
  maxThreadsCreated (watcher (runFromBoot "orders" (Some 5) quietThenBusy)) = 1
  /\ effectsOf (checkConcurrency_then (Some busyQueue)
                  (watcher (runFromBoot "orders" (Some 5) quietThenBusy)))
     = [CallReceive; CallReceive; CallReceive; CallReceive;
        SetTimeout TCheckConcurrency 10000]
  /\ maxThreadsCreated
       (stateOf (checkConcurrency_then (Some busyQueue)
                   (watcher (runFromBoot "orders" (Some 5) quietThenBusy)))) = 5.
Proof.
  pose proof (C6_monitor_fills_up_to_ceiling
                (watcher (runFromBoot "orders" (Some 5) quietThenBusy)) busyQueue
                ltac:(apply Z.leb_le; reflexivity)
                ltac:(apply Z.lt_gt, Z.ltb_lt; reflexivity)
                ltac:(apply Z.ltb_lt; reflexivity))
    as [Hcount [_ [Heff _]]].
  split; [reflexivity |]. split; [exact Heff | exact Hcount].
Defined.

(** *** Receiving *)

(** C7.  When the receive callback gets the text [No messages to receive]
    as its error, the only effect is one timer of 500 ms for
    [readOneMessage]: no error event is published. *)
Theorem C7_no_messages_retry (w : Watcher) (now now' : Z) (message : option Message) :
  effectsOf (readOneMessage_callback now now' (JsString "No messages to receive") message w)
    = [SetTimeout TReadOneMessage 500]
  /\ errorEvents
       (effectsOf (readOneMessage_callback now now' (JsString "No messages to receive")
                     message w)) = []
  /\ handle (EvTimer TReadOneMessage 500) = readOneMessage.
Proof.
  repeat split.
Qed.

(** *** Completion bookkeeping *)

(** The [done] factory runs inside the receive callback: the two
    [lastJobDone] fields are written when the message arrives. *)
Lemma receive_records_job_done (w : Watcher) (now now' : Z) (err : JsValue)
    (message : option Message) :
  truthy err = false ->
  readOneMessage_callback now now' err message w
  = (tt, set_lastJobDone (Some now') message (set_lastRead (Some now) message err w),
     [CallHandler message]).
Proof.
  intros Hf. unfold readOneMessage_callback.
  assert (Hno : strictEqString err AZURE_NO_MESSAGES = false).
  { destruct err as [| s | code]; try reflexivity.
    cbn in Hf |- *. destruct (String.eqb_spec s ""); [subst s; reflexivity | discriminate]. }
  unfold bind, modify, perform, stateOf, effectsOf, valueOf. cbn [fst snd].
  rewrite Hno, Hf. reflexivity.
Qed.

(** Neither [done] nor the handlers behind delete and unlock write them. *)
Lemma completion_keeps_job_done (w : Watcher) (m : option Message) (err : JsValue)
    (s : Settlement unit) :
  let same (w' : Watcher) :=
    lastJobDoneAt w' = lastJobDoneAt w /\ lastJobDone w' = lastJobDone w in
  same (stateOf (done m err w))
  /\ same (stateOf (done_remove_settled s w))
  /\ same (stateOf (done_unlock_settled s w)).
Proof.
  cbv zeta. unfold done.
  split; [destruct (truthy err); split; reflexivity |].
  destruct s as [[] | r]; unfold_m.
  - destruct (maxThreadsCreated w >? concurrency w); repeat split.
  - destruct (instanceofErrorMessage r); cbn [fst snd set_lastJobErrorDone
      maxThreadsCreated concurrency];
      destruct (maxThreadsCreated w >? concurrency w); repeat split.
Qed.

(** C8.  The code on that run.  Before any [done] is invoked the watcher
    already reports message 2 as the last job done, at 1500; after message
    1 is completed and deleted the two fields are the same: nothing is
    recorded when the delete succeeds, and message 2, which the fields
    name, has not been completed. *)
Theorem C8_completion_not_recorded_on_delete :
  let before := runFromBoot "orders" (Some 2) twoWorkers in
  let after := runFromBoot "orders" (Some 2) firstCompleted in
  run (boot "orders" (Some 2)) firstCompleted = Some after
  /\ count isDelete (log before) = 0%nat
  /\ lastJobDone (watcher before) = Some 2%nat
  /\ lastJobDoneAt (watcher before) = Some 1500
  /\ filter isDelete (log after) = [CallDelete (Some 1%nat)]
  /\ lastJobDone (watcher after) = Some 2%nat
  /\ lastJobDoneAt (watcher after) = Some 1500.
Proof.
  cbv zeta. repeat (match goal with |- _ /\ _ => split end); vm_compute; reflexivity.
Qed.

(** *** Published statuses *)

Lemma forallb_repeat {A} (p : A -> bool) (x : A) (n : nat) :
  p x = true -> forallb p (repeat x n) = true.
Proof.
  intros Hp. induction n as [| n IH]; [reflexivity |]. cbn. rewrite Hp, IH. reflexivity.
Qed.

Lemma forallb_weaken {A} (p q : A -> bool) (l : list A) :
  (forall x, p x = true -> q x = true) -> forallb p l = true -> forallb q l = true.
Proof.
  intros Hpq Hall. apply forallb_forall. intros x Hin. apply Hpq.
  revert x Hin. apply forallb_forall. exact Hall.
Qed.

Lemma count_none (f : Effect -> bool) (l : list Effect) :
  forallb (fun e => negb (f e)) l = true -> count f l = 0%nat.
Proof.
  unfold count. induction l as [| e l IH]; [reflexivity |]. cbn.
  intros H. apply andb_true_iff in H as [He Hl].
  destruct (f e); [discriminate | exact (IH Hl)].
Qed.

Lemma readOneMessage_effects (w : Watcher) :
  forallb lookupSettledEffect (effectsOf (readOneMessage w)) = true.
Proof.
  unfold_m. destruct (maxThreadsCreated w >? concurrency w); reflexivity.
Qed.

Lemma startReceivingMessages_effects (w : Watcher) (qd : QueueData) :
  queueData w = Some qd ->
  forallb lookupSettledEffect (effectsOf (startReceivingMessages w)) = true
  /\ valueOf (startReceivingMessages w) = Normal.
Proof.
  intros Hqd. destruct (Z.eq_dec (activeMessageCount qd) 0) as [HB | HB].
  - rewrite (startReceivingMessages_empty w qd Hqd HB).
    split; [| reflexivity]. unfold effectsOf at 1. cbn [snd].
    apply readOneMessage_effects.
  - rewrite (startReceivingMessages_backlog w qd Hqd HB).
    split; [| reflexivity]. unfold effectsOf. cbn [snd].
    apply forallb_repeat. reflexivity.
Qed.

Lemma start_settled_effects (w : Watcher) (s : Settlement (option QueueData)) :
  forallb lookupSettledEffect (effectsOf (start_settled s w)) = true.
Proof.
  destruct s as [[qd |] | r]; try reflexivity.
  destruct (startReceivingMessages_effects (set_queueData (Some qd) w) qd eq_refl)
    as [Hall Hnormal].
  unfold start_settled, start_then, bind, modify, stateOf, effectsOf, valueOf in *.
  cbn [fst snd] in *. rewrite Hnormal. cbn [fst snd app perform ret].
  rewrite !forallb_app, Hall. reflexivity.
Qed.

Lemma checkConcurrency_settled_effects (w : Watcher) (s : Settlement (option QueueData)) :
  forallb lookupSettledEffect (effectsOf (checkConcurrency_settled s w)) = true.
Proof.
  destruct s as [[qd |] | r]; try reflexivity.
  unfold checkConcurrency_settled, checkConcurrency_then, bind, modify, get, perform,
    ret, stateOf, effectsOf, valueOf.
  cbn [fst snd].
  destruct (orNumber (parseInt (ActiveMessageCount qd)) 0 =? 0); [reflexivity |].
  cbn [fst snd concurrency maxThreadsCreated set_queueData app].
  destruct (orNumber (parseInt (ActiveMessageCount qd)) 0 >? concurrency w);
    cbn [andb].
  - destruct (Z.ltb_spec (maxThreadsCreated w) (concurrency w)).
    + rewrite checkConcurrency_while_spec by (cbn; lia). cbn [fst snd].
      rewrite forallb_app, forallb_repeat by reflexivity. reflexivity.
    + destruct (orNumber (parseInt (ActiveMessageCount qd)) 0 <? maxThreadsCreated w);
        reflexivity.
  - destruct (orNumber (parseInt (ActiveMessageCount qd)) 0 <? maxThreadsCreated w);
      reflexivity.
Qed.

Lemma lookup_settled_effects (w : Watcher) (site : LookupSite) (err : JsValue)
    (remoteQueues : option (list QueueData)) :
  forallb lookupSettledEffect (effectsOf (handle (EvListQueues site err remoteQueues) w))
  = true.
Proof.
  destruct site; cbn [handle]; unfold bind at 1;
    unfold get, valueOf at 1, stateOf at 1, effectsOf at 1, effectsOf at 1;
    cbn [fst snd app].
  - apply start_settled_effects.
  - apply checkConcurrency_settled_effects.
Qed.









(** *** Reporting *)

(** C10.  [getWatcherInfo] reports [maxThreadsCreated] as -2 whenever the
    counter is 0, in particular on a fresh watcher; it reports
    [currentMessagesInQueue] as -1 when there is no snapshot and as 0 when
    [parseInt] of the snapshot's count is [NaN]. *)
Theorem C10_getWatcherInfo_defaults (w : Watcher) :
  (maxThreadsCreated w = 0 -> info_maxThreadsCreated (getWatcherInfo w) = -2)
  /\ (forall (name : string) (c : option Z),
        info_maxThreadsCreated (getWatcherInfo (newWatcher name c)) = -2)
  /\ (queueData w = None -> info_currentMessagesInQueue (getWatcherInfo w) = -1)
  /\ (forall qd : QueueData,
        queueData w = Some qd ->
        parseInt (ActiveMessageCount qd) = None ->
        info_currentMessagesInQueue (getWatcherInfo w) = 0).
Proof.
  split; [| split; [| split]].
  - intros H0. cbn. rewrite H0. reflexivity.
  - reflexivity.
  - intros Hnone. cbn. rewrite Hnone. reflexivity.
  - intros qd Hqd Hnan. cbn. rewrite Hqd, Hnan. reflexivity.
Qed.

Lemma C10_getWatcherInfo_defaults_witness :
  info_maxThreadsCreated (getWatcherInfo (newWatcher "orders" (Some 5))) = -2
  /\ info_currentMessagesInQueue (getWatcherInfo (newWatcher "orders" (Some 5))) = -1
  /\ info_currentMessagesInQueue
       (getWatcherInfo (set_queueData (Some (mkQueueData "orders" "many"))
                          (newWatcher "orders" (Some 5)))) = 0.
Proof.
  split; [| split].
  - apply (proj1 (C10_getWatcherInfo_defaults (newWatcher "orders" (Some 5)))).
    reflexivity.
  - apply (proj1 (proj2 (proj2 (C10_getWatcherInfo_defaults (newWatcher "orders" (Some 5)))))).
    reflexivity.
  - apply (proj2 (proj2 (proj2 (C10_getWatcherInfo_defaults
             (set_queueData (Some (mkQueueData "orders" "many"))
                (newWatcher "orders" (Some 5))))))
             (mkQueueData "orders" "many")).
    + reflexivity.
    + reflexivity.
Defined.

(** ** More of the code *)

(** *** [getQueueData] *)

Lemma filter_first_match {A} (f : A -> bool) (l : list A) (x : A) (rest : list A) :
  filter f l = x :: rest ->
  exists l1 l2, l = l1 ++ x :: l2 /\ f x = true /\ forall y, In y l1 -> f y = false.
Proof.
  induction l as [| a l IH]; cbn; [discriminate |].
  destruct (f a) eqn:Hfa.
  - intros H. injection H as -> _. exists [], l. repeat split; [exact Hfa | intros y []].
  - intros H. destruct (IH H) as [l1 [l2 [-> [Hx Hl1]]]].
    exists (a :: l1), l2. repeat split; [exact Hx |].
    intros y [<- | Hin]; [exact Hfa | exact (Hl1 y Hin)].
Qed.

Lemma filter_no_match {A} (f : A -> bool) (l : list A) :
  filter f l = [] -> forall y, In y l -> f y = false.
Proof.
  induction l as [| a l IH]; cbn; [intros _ y [] |].
  destruct (f a) eqn:Hfa; [discriminate |].
  intros H y [<- | Hin]; [exact Hfa | exact (IH H y Hin)].
Qed.

(** X1.  When [listQueues] reports no error and returns an array, the
    promise of [getQueueData] is never rejected: it resolves with the first
    entry of the array whose [QueueName] is the name asked for, and with
    [null] exactly when no entry has that name. *)
Theorem X1_getQueueData_first_match (name : string) (err : JsValue) (qs : list QueueData) :
  truthy err = false ->
  match getQueueData_callback name err (Some qs) with
  | Resolved (Some q) =>
      exists l1 l2, qs = l1 ++ q :: l2
                    /\ QueueName q = name
                    /\ forall x, In x l1 -> QueueName x <> name
  | Resolved None => forall x, In x qs -> QueueName x <> name
  | Rejected _ => False
  end.
Proof.
  intros Hf. unfold getQueueData_callback. rewrite Hf.
  destruct (filter (fun queue => (QueueName queue =? name)%string) qs) as [| q rest] eqn:Hfilter.
  - intros x Hin. apply String.eqb_neq. exact (filter_no_match _ _ Hfilter x Hin).
  - destruct (filter_first_match _ _ _ _ Hfilter) as [l1 [l2 [Hqs [Hq Hl1]]]].
    exists l1, l2. split; [exact Hqs |]. split; [apply String.eqb_eq; exact Hq |].
    intros x Hin. apply String.eqb_neq. exact (Hl1 x Hin).
Qed.

Lemma X1_getQueueData_first_match_witness :
  getQueueData_callback "orders" JsNull
    (Some [mkQueueData "other" "4"; mkQueueData "orders" "8"; mkQueueData "orders" "2"])
  = Resolved (Some (mkQueueData "orders" "8"))
  /\ (forall x, In x [mkQueueData "other" "4"; mkQueueData "audit" "1"] ->
       QueueName x <> "orders").
Proof.
  split; [reflexivity |].
  exact (X1_getQueueData_first_match "orders" (JsString "")
           [mkQueueData "other" "4"; mkQueueData "audit" "1"] eq_refl).
Defined.

(** *** [start] *)

Lemma count_app (f : Effect -> bool) (l1 l2 : list Effect) :
  count f (l1 ++ l2) = (count f l1 + count f l2)%nat.
Proof.
  unfold count. rewrite filter_app, length_app. reflexivity.
Qed.

Lemma count_repeat_false (f : Effect -> bool) (x : Effect) (n : nat) :
  f x = false -> count f (repeat x n) = 0%nat.
Proof.
  intros Hx. unfold count. induction n as [| n IH]; [reflexivity |].
  cbn. rewrite Hx. exact IH.
Qed.

Lemma count_repeat_true (f : Effect -> bool) (x : Effect) (n : nat) :
  f x = true -> count f (repeat x n) = n.
Proof.
  intros Hx. unfold count. induction n as [| n IH]; [reflexivity |].
  cbn. rewrite Hx. cbn. rewrite IH. reflexivity.
Qed.

Lemma bind_get {A} (k : Watcher -> M A) (w : Watcher) :
  bind get k w = k w w.
Proof.
  unfold bind, get, stateOf, effectsOf, valueOf. cbn [fst snd app].
  destruct (k w w) as [[a w'] l]. reflexivity.
Qed.



(** X3.  When the lookup of [start()] yields the queue and the ceiling is
    positive, the handler stores the snapshot, runs the spin-up, then arms
    the concurrency checker once at 10 000 ms as its last effect; it
    publishes no error event and the spin-up never throws. *)
Theorem X3_successful_start (w : Watcher) (err : JsValue)
    (remoteQueues : option (list QueueData)) (qd : QueueData) :
  1 <= concurrency w ->
  getQueueData_callback (queueName w) err remoteQueues = Resolved (Some qd) ->
  queueData (stateOf (handle (EvListQueues AtStart err remoteQueues) w)) = Some qd
  /\ effectsOf (handle (EvListQueues AtStart err remoteQueues) w)
     = effectsOf (startReceivingMessages (set_queueData (Some qd) w))
       ++ [SetTimeout TStartChecker 10000]
  /\ valueOf (startReceivingMessages (set_queueData (Some qd) w)) = Normal
  /\ errorEvents (effectsOf (handle (EvListQueues AtStart err remoteQueues) w)) = [].
Proof.
  intros Hpos Hcb. cbn [handle]. rewrite bind_get, Hcb.
  assert (Hshape :
    start_settled (Resolved (Some qd)) w
    = (tt, stateOf (startReceivingMessages (set_queueData (Some qd) w)),
       effectsOf (startReceivingMessages (set_queueData (Some qd) w))
         ++ [SetTimeout TStartChecker 10000])
    /\ valueOf (startReceivingMessages (set_queueData (Some qd) w)) = Normal
    /\ queueData (stateOf (startReceivingMessages (set_queueData (Some qd) w))) = Some qd
    /\ errorEvents (effectsOf (startReceivingMessages (set_queueData (Some qd) w))) = []).
  { destruct (Z.eq_dec (activeMessageCount qd) 0) as [HB | HB].
    - pose proof (startReceivingMessages_empty (set_queueData (Some qd) w) qd eq_refl HB)
        as Hsr.
      rewrite readOneMessage_receives in Hsr by (cbn; lia).
      unfold start_settled, start_then, bind, modify, perform, ret,
        stateOf, effectsOf, valueOf.
      cbn [fst snd]. rewrite Hsr. cbn [fst snd app]. repeat split.
    - pose proof (startReceivingMessages_backlog (set_queueData (Some qd) w) qd eq_refl HB)
        as Hsr.
      unfold start_settled, start_then, bind, modify, perform, ret,
        stateOf, effectsOf, valueOf.
      cbn [fst snd]. rewrite Hsr. cbn [fst snd app]. rewrite !app_nil_r.
      repeat (match goal with |- _ /\ _ => split end); try reflexivity.
      clear Hsr. induction (Z.to_nat _) as [| n IH]; [reflexivity | exact IH]. }
  destruct Hshape as [Heq [Hnormal [Hqd Herr]]]. rewrite Heq.
  unfold stateOf at 1, effectsOf at 1 3. cbn [fst snd].
  repeat (match goal with |- _ /\ _ => split end); try assumption; try reflexivity.
  clear Heq. revert Herr.
  generalize (effectsOf (startReceivingMessages (set_queueData (Some qd) w))).
  intros l Hl. induction l as [| e l IH]; [reflexivity |].
  cbn in Hl |- *. destruct (errorEvent e); [discriminate | exact (IH Hl)].
Qed.

Lemma X3_successful_start_witness :
  effectsOf (handle (EvListQueues AtStart JsNull
                       (Some [mkQueueData "other" "0"; mkQueueData "orders" "2"]))
               (newWatcher "orders" (Some 5)))
  = [SetTimeout TReadOneMessage 25; SetTimeout TReadOneMessage 25;
     SetTimeout TStartChecker 10000]
  /\ errorEvents
       (effectsOf (handle (EvListQueues AtStart JsNull
                             (Some [mkQueueData "other" "0"; mkQueueData "orders" "2"]))
                     (newWatcher "orders" (Some 5)))) = [].
Proof.
  split; [vm_compute; reflexivity |].
  apply (X3_successful_start (newWatcher "orders" (Some 5)) JsNull
           (Some [mkQueueData "other" "0"; mkQueueData "orders" "2"])
           (mkQueueData "orders" "2")).
  - apply Z.leb_le. reflexivity.
  - reflexivity.
Defined.

(** *** [startReceivingMessages] *)

(** X4.  What the spin-up leaves in the watcher, for a positive ceiling.
    With an empty queue the counter is 1 and [isStartRunning] stays [true]:
    the method returns from inside the branch, before the flag is reset.
    With a backlog [B > 0] the counter is [min concurrency B] and the flag
    is [false] again.  Neither branch touches the snapshot. *)
Theorem X4_spin_up_counter_and_flag (w : Watcher) (qd : QueueData) :
  queueData w = Some qd ->
  1 <= concurrency w ->
  (activeMessageCount qd = 0 ->
     maxThreadsCreated (stateOf (startReceivingMessages w)) = 1
     /\ isStartRunning (stateOf (startReceivingMessages w)) = true)
  /\ (0 < activeMessageCount qd ->
     maxThreadsCreated (stateOf (startReceivingMessages w))
       = Z.min (concurrency w) (activeMessageCount qd)
     /\ isStartRunning (stateOf (startReceivingMessages w)) = false)
  /\ queueData (stateOf (startReceivingMessages w)) = Some qd.
Proof.
  intros Hqd Hpos.
  destruct (Z.eq_dec (activeMessageCount qd) 0) as [HB | HB].
  - rewrite (startReceivingMessages_empty w qd Hqd HB).
    rewrite readOneMessage_receives by (cbn; lia).
    unfold stateOf. cbn [fst snd].
    split; [intros _; split; reflexivity |]. split; [lia | exact Hqd].
  - rewrite (startReceivingMessages_backlog w qd Hqd HB).
    unfold stateOf. cbn [fst snd].
    split; [intros H0; contradiction |]. split; [| exact Hqd].
    intros Hgt. cbn. split; [lia | reflexivity].
Qed.

Lemma X4_spin_up_counter_and_flag_witness :
  isStartRunning
    (stateOf (startReceivingMessages
                (set_queueData (Some (mkQueueData "orders" "0")) (newWatcher "orders" (Some 5)))))
  = true
  /\ maxThreadsCreated
       (stateOf (startReceivingMessages
                   (set_queueData (Some (mkQueueData "orders" "3"))
                      (newWatcher "orders" (Some 5))))) = 3.
Proof.
  split.
  - apply (X4_spin_up_counter_and_flag
             (set_queueData (Some (mkQueueData "orders" "0")) (newWatcher "orders" (Some 5)))
             (mkQueueData "orders" "0") eq_refl ltac:(apply Z.leb_le; reflexivity)).
    reflexivity.
  - apply (X4_spin_up_counter_and_flag
             (set_queueData (Some (mkQueueData "orders" "3")) (newWatcher "orders" (Some 5)))
             (mkQueueData "orders" "3") eq_refl ltac:(apply Z.leb_le; reflexivity)).
    reflexivity.
Defined.

(** *** [checkConcurrency] *)


(** X6.  A tick adds workers only when the backlog is strictly above the
    ceiling.  With a backlog of at most [concurrency] it makes no receive
    call, however few workers run; the counter becomes 1 for an empty queue
    and otherwise the smaller of the old counter and the backlog. *)
Theorem X6_monitor_adds_nothing_up_to_ceiling (w : Watcher) (qd : QueueData) :
  activeMessageCount qd <= concurrency w ->
  count isReceive (effectsOf (checkConcurrency_then (Some qd) w)) = 0%nat
  /\ maxThreadsCreated (stateOf (checkConcurrency_then (Some qd) w))
     = (if activeMessageCount qd =? 0 then 1
        else Z.min (maxThreadsCreated w) (activeMessageCount qd))
  /\ queueData (stateOf (checkConcurrency_then (Some qd) w)) = Some qd.
Proof.
  unfold activeMessageCount. intros HB.
  unfold checkConcurrency_then, bind, modify, get, perform, ret, stateOf, effectsOf, valueOf.
  cbn [fst snd].
  destruct (orNumber (parseInt (ActiveMessageCount qd)) 0 =? 0);
    [repeat split; reflexivity |].
  cbn [fst snd concurrency maxThreadsCreated set_queueData app].
  destruct (Z.gtb_spec (orNumber (parseInt (ActiveMessageCount qd)) 0) (concurrency w));
    [lia |].
  cbn [andb].
  destruct (Z.ltb_spec (orNumber (parseInt (ActiveMessageCount qd)) 0) (maxThreadsCreated w));
    cbn; repeat split; lia.
Qed.

Lemma X6_monitor_adds_nothing_up_to_ceiling_witness :
  count isReceive
    (effectsOf (checkConcurrency_then (Some (mkQueueData "orders" "5"))
                  (watcher (runFromBoot "orders" (Some 5) quietThenBusy)))) = 0%nat
  /\ maxThreadsCreated
       (stateOf (checkConcurrency_then (Some (mkQueueData "orders" "5"))
                   (watcher (runFromBoot "orders" (Some 5) quietThenBusy)))) = 1.
Proof.
  pose proof (X6_monitor_adds_nothing_up_to_ceiling
                (watcher (runFromBoot "orders" (Some 5) quietThenBusy))
                (mkQueueData "orders" "5")
                ltac:(apply Z.leb_le; reflexivity)) as [Hnone [Hcounter _]].
  split; [exact Hnone | exact Hcounter].
Defined.



(** *** The callback of [receiveQueueMessage] *)



(** *** Settling of delete and unlock *)

(** X9.  A failed delete or unlock is always written to [lastJobErrorDone],
    also when it is not published, so [getWatcherInfo] shows it: the
    [ErrorMessage] for a 404 and the client's own error otherwise.  A
    successful delete or unlock leaves the field alone: an earlier error
    stays reported. *)
Theorem X9_last_job_error_reported (w : Watcher) (m : option Message) (err : JsValue) :
  (truthy err = true ->
     info_lastJobErrorDone
       (getWatcherInfo (stateOf (done_remove_settled (removeMessage_callback m err) w)))
     = Some (if codeIs err "404"
             then ReasonErrorMessage
                    (mkErrorMessage err "on_remove_unlock_message_from_azure" m)
             else ReasonValue err)
     /\ info_lastJobErrorDone
          (getWatcherInfo (stateOf (done_unlock_settled (unlockMessage_callback m err) w)))
        = Some (if codeIs err "404"
                then ReasonErrorMessage (mkErrorMessage err "on_unlock_message_from_azure" m)
                else ReasonValue err))
  /\ (truthy err = false ->
     info_lastJobErrorDone
       (getWatcherInfo (stateOf (done_remove_settled (removeMessage_callback m err) w)))
     = info_lastJobErrorDone (getWatcherInfo w)
     /\ info_lastJobErrorDone
          (getWatcherInfo (stateOf (done_unlock_settled (unlockMessage_callback m err) w)))
        = info_lastJobErrorDone (getWatcherInfo w)).
Proof.
  unfold removeMessage_callback, unlockMessage_callback.
  rewrite notFound_is_object.
  split; intros Ht.
  - destruct (codeIs err "404") eqn:H404; [| rewrite Ht];
      unfold_m; cbn [instanceofErrorMessage fst snd maxThreadsCreated concurrency
                     set_lastJobErrorDone];
      destruct (maxThreadsCreated w >? concurrency w); cbn; try rewrite Ht;
      split; reflexivity.
  - assert (H404 : codeIs err "404" = false).
    { destruct err as [| s | code]; try reflexivity. discriminate Ht. }
    rewrite H404, Ht. unfold_m.
    destruct (maxThreadsCreated w >? concurrency w); split; reflexivity.
Qed.

Lemma X9_last_job_error_reported_witness :
  info_lastJobErrorDone
    (getWatcherInfo
       (stateOf (done_remove_settled
                   (removeMessage_callback (Some 7%nat) (JsString "ECONNRESET"))
                   (newWatcher "orders" (Some 5)))))
  = Some (ReasonValue (JsString "ECONNRESET"))
  /\ info_lastJobErrorDone
       (getWatcherInfo
          (stateOf (done_unlock_settled (unlockMessage_callback (Some 8%nat) JsNull)
                      (stateOf (done_remove_settled
                                  (removeMessage_callback (Some 7%nat) (JsString "ECONNRESET"))
                                  (newWatcher "orders" (Some 5)))))))
     = Some (ReasonValue (JsString "ECONNRESET")).
Proof.
  split.
  - exact (proj1 (proj1 (X9_last_job_error_reported (newWatcher "orders" (Some 5))
                           (Some 7%nat) (JsString "ECONNRESET")) eq_refl)).
  - exact (proj2 (proj2 (X9_last_job_error_reported
                           (stateOf (done_remove_settled
                                       (removeMessage_callback (Some 7%nat)
                                          (JsString "ECONNRESET"))
                                       (newWatcher "orders" (Some 5))))
                           (Some 8%nat) JsNull) eq_refl)).
Defined.

(** X10.  How [unlockMessage] and [removeMessage] settle.  The promise
    resolves exactly when the client's error is falsy, so an empty string
    counts as success.  It is rejected with an [ErrorMessage] exactly when
    the error is an object whose [code] is the string 404 (a number 404 does
    not count); that [ErrorMessage] carries the message handle and the
    client's error.  Every other truthy error is passed on unchanged. *)
Theorem X10_unlock_and_remove_settle (m : option Message) (err : JsValue) :
  (unlockMessage_callback m err = Resolved tt <-> truthy err = false)
  /\ (removeMessage_callback m err = Resolved tt <-> truthy err = false)
  /\ (codeIs err "404" = true ->
        unlockMessage_callback m err
        = Rejected (ReasonErrorMessage
                      (mkErrorMessage err "on_unlock_message_from_azure" m))
        /\ removeMessage_callback m err
           = Rejected (ReasonErrorMessage
                         (mkErrorMessage err "on_remove_unlock_message_from_azure" m)))
  /\ (codeIs err "404" = false -> truthy err = true ->
        unlockMessage_callback m err = Rejected (ReasonValue err)
        /\ removeMessage_callback m err = Rejected (ReasonValue err)).
Proof.
  unfold unlockMessage_callback, removeMessage_callback. rewrite notFound_is_object.
  destruct (codeIs err "404") eqn:H404.
  - assert (Ht : truthy err = true) by (destruct err as [| s | code]; [discriminate .. | reflexivity]).
    rewrite Ht. repeat split; try discriminate; try (intros; discriminate).
  - destruct (truthy err); repeat split; try discriminate; try (intros; discriminate).
Qed.

Lemma X10_unlock_and_remove_settle_witness :
  unlockMessage_callback (Some 7%nat) (JsString "") = Resolved tt
  /\ removeMessage_callback (Some 7%nat) (JsObject (CodeNumber 404))
     = Rejected (ReasonValue (JsObject (CodeNumber 404)))
  /\ unlockMessage_callback (Some 7%nat) (JsObject (CodeString "404"))
     = Rejected (ReasonErrorMessage
                   (mkErrorMessage (JsObject (CodeString "404"))
                      "on_unlock_message_from_azure" (Some 7%nat))).
Proof.
  split; [| split].
  - apply (proj1 (X10_unlock_and_remove_settle (Some 7%nat) (JsString ""))). reflexivity.
  - apply (proj2 (proj2 (proj2 (X10_unlock_and_remove_settle (Some 7%nat)
                                  (JsObject (CodeNumber 404))))));
      reflexivity.
  - apply (proj1 (proj2 (proj2 (X10_unlock_and_remove_settle (Some 7%nat)
                                  (JsObject (CodeString "404")))))).
    reflexivity.
Defined.

(** *** What no handler rewrites *)

Lemma readOneMessage_frame (w : Watcher) :
  queueName (stateOf (readOneMessage w)) = queueName w
  /\ concurrency (stateOf (readOneMessage w)) = concurrency w
  /\ queueData (stateOf (readOneMessage w)) = queueData w.
Proof.
  unfold_m. destruct (maxThreadsCreated w >? concurrency w); repeat split.
Qed.

Lemma startReceivingMessages_frame (w : Watcher) (qd : QueueData) :
  queueData w = Some qd ->
  queueName (stateOf (startReceivingMessages w)) = queueName w
  /\ concurrency (stateOf (startReceivingMessages w)) = concurrency w
  /\ queueData (stateOf (startReceivingMessages w)) = Some qd.
Proof.
  intros Hqd. destruct (Z.eq_dec (activeMessageCount qd) 0) as [HB | HB].
  - rewrite (startReceivingMessages_empty w qd Hqd HB).
    unfold stateOf at 1 3 5. cbn [fst snd].
    destruct (readOneMessage_frame (set_maxThreadsCreated 1 (spinUpEntry w)))
      as [Hn [Hc Hq]].
    rewrite Hn, Hc, Hq. repeat split. exact Hqd.
  - rewrite (startReceivingMessages_backlog w qd Hqd HB).
    unfold stateOf. cbn [fst snd]. repeat split. exact Hqd.
Qed.

Lemma checkConcurrency_then_frame (w : Watcher) (qd : QueueData) :
  queueName (stateOf (checkConcurrency_then (Some qd) w)) = queueName w
  /\ concurrency (stateOf (checkConcurrency_then (Some qd) w)) = concurrency w
  /\ queueData (stateOf (checkConcurrency_then (Some qd) w)) = Some qd.
Proof.
  unfold checkConcurrency_then, bind, modify, get, perform, ret, stateOf, effectsOf, valueOf.
  cbn [fst snd].
  destruct (orNumber (parseInt (ActiveMessageCount qd)) 0 =? 0); [repeat split |].
  cbn [fst snd concurrency maxThreadsCreated set_queueData].
  destruct (orNumber (parseInt (ActiveMessageCount qd)) 0 >? concurrency w); cbn [andb].
  - destruct (Z.ltb_spec (maxThreadsCreated w) (concurrency w)).
    + rewrite checkConcurrency_while_spec by (cbn; lia). repeat split.
    + destruct (orNumber (parseInt (ActiveMessageCount qd)) 0 <? maxThreadsCreated w);
        repeat split.
  - destruct (orNumber (parseInt (ActiveMessageCount qd)) 0 <? maxThreadsCreated w);
      repeat split.
Qed.

Lemma done_settled_frame (w : Watcher) (s : Settlement unit) :
  (queueName (stateOf (done_unlock_settled s w)) = queueName w
   /\ concurrency (stateOf (done_unlock_settled s w)) = concurrency w
   /\ queueData (stateOf (done_unlock_settled s w)) = queueData w)
  /\ (queueName (stateOf (done_remove_settled s w)) = queueName w
      /\ concurrency (stateOf (done_remove_settled s w)) = concurrency w
      /\ queueData (stateOf (done_remove_settled s w)) = queueData w).
Proof.
  destruct s as [[] | r]; unfold_m.
  - destruct (maxThreadsCreated w >? concurrency w); repeat split.
  - destruct (instanceofErrorMessage r);
      cbn [fst snd maxThreadsCreated concurrency set_lastJobErrorDone];
      destruct (maxThreadsCreated w >? concurrency w); repeat split.
Qed.

Lemma checkConcurrency_state (w : Watcher) :
  stateOf (checkConcurrency w) = w /\ stateOf (startChecker w) = w.
Proof.
  unfold_m. destruct (queueData w); split; reflexivity.
Qed.

(** A handler keeps the queue name and the ceiling, and it keeps the
    snapshot unless it is the handler of a lookup that yielded the queue. *)
Lemma handle_frame (ev : Event) (w : Watcher) :
  queueName (stateOf (handle ev w)) = queueName w
  /\ concurrency (stateOf (handle ev w)) = concurrency w
  /\ (queueData (stateOf (handle ev w)) = queueData w
      \/ exists site err remoteQueues qd,
           ev = EvListQueues site err remoteQueues
           /\ getQueueData_callback (queueName w) err remoteQueues = Resolved (Some qd)
           /\ queueData (stateOf (handle ev w)) = Some qd).
Proof.
  destruct ev as [| [| |] delay | [|] err remoteQueues | now now' err message
                  | m err | m err | m err]; cbn [handle].
  - repeat split. left. reflexivity.
  - destruct (readOneMessage_frame w) as [Hn [Hc Hq]]. repeat split; auto.
  - rewrite (proj2 (checkConcurrency_state w)). repeat split. left. reflexivity.
  - rewrite (proj1 (checkConcurrency_state w)). repeat split. left. reflexivity.
  - rewrite bind_get.
    destruct (getQueueData_callback (queueName w) err remoteQueues) as [[qd |] | r] eqn:Hcb.
    + assert (Heq : stateOf (start_settled (Resolved (Some qd)) w)
                    = stateOf (startReceivingMessages (set_queueData (Some qd) w))).
      { unfold start_settled, start_then, bind, modify, perform, ret,
          stateOf, effectsOf, valueOf. cbn [fst snd].
        destruct (fst (fst (startReceivingMessages (set_queueData (Some qd) w))));
          reflexivity. }
      rewrite Heq.
      destruct (startReceivingMessages_frame (set_queueData (Some qd) w) qd eq_refl)
        as [Hn [Hc Hq]].
      repeat split; auto. right. exists AtStart, err, remoteQueues, qd. auto.
    + repeat split. left. reflexivity.
    + repeat split. left. reflexivity.
  - rewrite bind_get.
    destruct (getQueueData_callback (queueName w) err remoteQueues) as [[qd |] | r] eqn:Hcb;
      cbn [checkConcurrency_settled].
    + destruct (checkConcurrency_then_frame w qd) as [Hn [Hc Hq]].
      repeat split; auto. right. exists AtCheckConcurrency, err, remoteQueues, qd. auto.
    + repeat split. left. reflexivity.
    + repeat split. left. reflexivity.
  - unfold readOneMessage_callback, bind, modify, perform, stateOf, effectsOf, valueOf.
    cbn [fst snd].
    destruct (strictEqString err AZURE_NO_MESSAGES); [repeat split; left; reflexivity |].
    destruct (truthy err); repeat split; left; reflexivity.
  - unfold done. destruct (truthy err); repeat split; left; reflexivity.
  - destruct (done_settled_frame w (unlockMessage_callback m err)) as [[Hn [Hc Hq]] _].
    repeat split; auto.
  - destruct (done_settled_frame w (removeMessage_callback m err)) as [_ [Hn [Hc Hq]]].
    repeat split; auto.
Qed.

Lemma getQueueData_callback_resolved (name : string) (err : JsValue)
    (remoteQueues : option (list QueueData)) (q : QueueData) :
  getQueueData_callback name err remoteQueues = Resolved (Some q) ->
  QueueName q = name /\ exists qs, remoteQueues = Some qs /\ In q qs.
Proof.
  unfold getQueueData_callback.
  destruct (truthy err); [discriminate |].
  destruct remoteQueues as [qs |]; [| discriminate].
  destruct (filter (fun queue => (QueueName queue =? name)%string) qs) as [| q0 rest] eqn:Hf;
    [discriminate |].
  intros H. injection H as <-.
  assert (Hin : In q0 (filter (fun queue => (QueueName queue =? name)%string) qs))
    by (rewrite Hf; left; reflexivity).
  apply filter_In in Hin as [Hin Hname].
  split; [apply String.eqb_eq; exact Hname |]. exists qs. split; [reflexivity | exact Hin].
Qed.

(** X11.  In every reachable state the configuration is the one the
    constructor was given (queue name and ceiling are never rewritten), and
    a captured snapshot is always an entry of the configured queue: its
    [QueueName] is the watcher's [queueName]. *)
Theorem X11_configuration_and_snapshot (name : string) (c : option Z) (s : System) :
  reachable name c s ->
  queueName (watcher s) = name
  /\ concurrency (watcher s) = concurrency (newWatcher name c)
  /\ forall qd, queueData (watcher s) = Some qd -> QueueName qd = name.
Proof.
  intros Hreach. induction Hreach as [| s s' ev _ IH Hstep].
  - repeat split. intros qd H. discriminate H.
  - destruct IH as [Hn [Hc Hq]].
    rewrite (step_watcher _ _ _ Hstep).
    destruct (handle_frame ev (watcher s)) as [Hn' [Hc' Hq']].
    rewrite Hn', Hc'. repeat split; try assumption.
    intros qd Hqd.
    destruct Hq' as [Hsame | [site [err [rq [qd' [_ [Hcb Hnew]]]]]]].
    + apply Hq. rewrite <- Hsame. exact Hqd.
    + rewrite Hnew in Hqd. injection Hqd as <-.
      rewrite <- Hn. exact (proj1 (getQueueData_callback_resolved _ _ _ _ Hcb)).
Qed.

Lemma X11_configuration_and_snapshot_witness :
  queueData (watcher (runFromBoot "orders" (Some 5) busyRun)) = Some busyQueue
  /\ queueName (watcher (runFromBoot "orders" (Some 5) busyRun)) = "orders".
Proof.
  split; [vm_compute; reflexivity |].
  exact (proj1 (X11_configuration_and_snapshot "orders" (Some 5)
                  (runFromBoot "orders" (Some 5) busyRun) (runFromBoot_reachable _ _ _))).
Defined.

(** X12.  A snapshot, once captured, is never cleared, whatever happens
    afterwards (failed lookups, a vanished queue, a second [start()]); so
    from then on every tick of the monitor looks the queue up again. *)
Theorem X12_snapshot_is_never_cleared (evs : list Event) :
  forall s s' : System,
    queueData (watcher s) <> None ->
    run s evs = Some s' ->
    queueData (watcher s') <> None
    /\ effectsOf (handle (EvTimer TCheckConcurrency 10000) (watcher s'))
       = [CallListQueues AtCheckConcurrency].
Proof.
  induction evs as [| ev evs IH]; intros s s' Hq Hrun; cbn [run] in Hrun.
  - injection Hrun as <-. split; [exact Hq |].
    cbn [handle]. unfold_m. destruct (queueData (watcher s)); [reflexivity | contradiction].
  - destruct (step s ev) as [s1 |] eqn:Hstep; [| discriminate].
    apply (IH s1); [| exact Hrun].
    rewrite (step_watcher _ _ _ Hstep).
    destruct (handle_frame ev (watcher s)) as [_ [_ [Hsame | [? [? [? [qd [_ [_ Hnew]]]]]]]]].
    + rewrite Hsame. exact Hq.
    + rewrite Hnew. discriminate.
Qed.

Lemma X12_snapshot_is_never_cleared_witness :
  queueData
    (watcher (runFromBoot "orders" (Some 5)
                (busyRun ++ [EvTimer TStartChecker 10000;
                             EvListQueues AtCheckConcurrency JsNull (Some [])])))
  <> None.
Proof.
  apply (X12_snapshot_is_never_cleared
           [EvTimer TStartChecker 10000; EvListQueues AtCheckConcurrency JsNull (Some [])]
           (runFromBoot "orders" (Some 5) busyRun)).
  - vm_compute. discriminate.
  - vm_compute. reflexivity.
Defined.

(** *** Bounds of the counter *)

Lemma start_settled_found (w : Watcher) (qd : QueueData) :
  stateOf (start_settled (Resolved (Some qd)) w)
  = stateOf (startReceivingMessages (set_queueData (Some qd) w))
  /\ effectsOf (start_settled (Resolved (Some qd)) w)
     = effectsOf (startReceivingMessages (set_queueData (Some qd) w))
       ++ [SetTimeout TStartChecker CHECK_CONCURRENCY_TIMER].
Proof.
  destruct (startReceivingMessages_effects (set_queueData (Some qd) w) qd eq_refl)
    as [_ Hnormal].
  unfold start_settled, start_then, bind, modify, perform, ret,
    stateOf, effectsOf, valueOf in *.
  cbn [fst snd] in *. rewrite Hnormal. cbn [fst snd app].
  rewrite !app_nil_r. split; reflexivity.
Qed.

Section CounterBounds.

Variable c : Z.
Hypothesis Hpos : 1 <= c.

Lemma handle_nonnegative (ev : Event) (w : Watcher) :
  ceilingRespected c w ->
  backlogsNonNegative ev = true ->
  0 <= maxThreadsCreated w ->
  0 <= maxThreadsCreated (stateOf (handle ev w)).
Proof.
  intros [Hc Hle] Hev H0.
  destruct ev as [| [| |] delay | [|] err remoteQueues | now now' err message
                  | m err | m err | m err]; cbn [handle].
  - exact H0.
  - rewrite readOneMessage_receives by lia. exact H0.
  - rewrite (proj2 (checkConcurrency_state w)). exact H0.
  - rewrite (proj1 (checkConcurrency_state w)). exact H0.
  - rewrite bind_get.
    destruct (getQueueData_callback (queueName w) err remoteQueues) as [[qd |] | r];
      try exact H0.
    rewrite (proj1 (start_settled_found w qd)).
    destruct (Z.eq_dec (activeMessageCount qd) 0) as [HB | HB].
    + rewrite (startReceivingMessages_empty (set_queueData (Some qd) w) qd eq_refl HB).
      rewrite readOneMessage_receives by (cbn; lia). cbn. lia.
    + rewrite (startReceivingMessages_backlog (set_queueData (Some qd) w) qd eq_refl HB). cbn. lia.
  - rewrite bind_get.
    destruct (getQueueData_callback (queueName w) err remoteQueues) as [[qd |] | r] eqn:Hcb;
      try exact H0.
    destruct (getQueueData_callback_resolved _ _ _ _ Hcb) as [_ [qs [-> Hin]]].
    cbn [backlogsNonNegative] in Hev.
    assert (HB : 0 <= activeMessageCount qd).
    { apply Z.leb_le.
      exact (proj1 (forallb_forall _ qs) Hev qd Hin). }
    unfold activeMessageCount in HB.
    unfold checkConcurrency_settled, checkConcurrency_then, bind, modify, get, perform,
      ret, stateOf, effectsOf, valueOf.
    cbn [fst snd].
    destruct (orNumber (parseInt (ActiveMessageCount qd)) 0 =? 0); [cbn; lia |].
    cbn [fst snd concurrency maxThreadsCreated set_queueData].
    destruct (orNumber (parseInt (ActiveMessageCount qd)) 0 >? concurrency w); cbn [andb].
    + destruct (Z.ltb_spec (maxThreadsCreated w) (concurrency w)).
      * rewrite checkConcurrency_while_spec by (cbn; lia). cbn. lia.
      * destruct (orNumber (parseInt (ActiveMessageCount qd)) 0 <? maxThreadsCreated w);
          cbn; lia.
    + destruct (orNumber (parseInt (ActiveMessageCount qd)) 0 <? maxThreadsCreated w);
        cbn; lia.
  - unfold readOneMessage_callback, bind, modify, perform, stateOf, effectsOf, valueOf.
    cbn [fst snd].
    destruct (strictEqString err AZURE_NO_MESSAGES); [exact H0 |].
    destruct (truthy err); exact H0.
  - unfold done. destruct (truthy err); exact H0.
  - destruct (unlockMessage_callback m err) as [[] | r]; cbn [done_unlock_settled].
    + rewrite readOneMessage_receives by lia. exact H0.
    + unfold bind, modify, stateOf, effectsOf, valueOf. cbn [fst snd].
      destruct (instanceofErrorMessage r); cbn [perform ret fst snd];
        rewrite readOneMessage_receives by (cbn; lia); exact H0.
  - destruct (removeMessage_callback m err) as [[] | r]; cbn [done_remove_settled].
    + rewrite readOneMessage_receives by lia. exact H0.
    + unfold bind, modify, stateOf, effectsOf, valueOf. cbn [fst snd].
      destruct (instanceofErrorMessage r); cbn [perform ret fst snd];
        rewrite readOneMessage_receives by (cbn; lia); exact H0.
Qed.

Lemma handle_guard_silent (ev : Event) (w : Watcher) :
  ceilingRespected c w ->
  count (hasStatus MAX_THREADS_EXCEEDED) (effectsOf (handle ev w)) = 0%nat.
Proof.
  intros [Hc Hle].
  destruct ev as [| [| |] delay | [|] err remoteQueues | now now' err message
                  | m err | m err | m err]; cbn [handle].
  - reflexivity.
  - rewrite readOneMessage_receives by lia. reflexivity.
  - unfold_m. destruct (queueData w); reflexivity.
  - unfold_m. destruct (queueData w); reflexivity.
  - rewrite bind_get.
    destruct (getQueueData_callback (queueName w) err remoteQueues) as [[qd |] | r];
      try reflexivity.
    rewrite (proj2 (start_settled_found w qd)), count_app.
    destruct (Z.eq_dec (activeMessageCount qd) 0) as [HB | HB].
    + rewrite (startReceivingMessages_empty (set_queueData (Some qd) w) qd eq_refl HB).
      rewrite readOneMessage_receives by (cbn; lia). reflexivity.
    + rewrite (startReceivingMessages_backlog (set_queueData (Some qd) w) qd eq_refl HB).
      unfold effectsOf. cbn [snd]. rewrite count_repeat_false by reflexivity. reflexivity.
  - rewrite bind_get.
    destruct (getQueueData_callback (queueName w) err remoteQueues) as [[qd |] | r];
      try reflexivity.
    unfold checkConcurrency_settled, checkConcurrency_then, bind, modify, get, perform,
      ret, stateOf, effectsOf, valueOf.
    cbn [fst snd].
    destruct (orNumber (parseInt (ActiveMessageCount qd)) 0 =? 0); [reflexivity |].
    cbn [fst snd concurrency maxThreadsCreated set_queueData app].
    destruct (orNumber (parseInt (ActiveMessageCount qd)) 0 >? concurrency w); cbn [andb].
    + destruct (Z.ltb_spec (maxThreadsCreated w) (concurrency w)).
      * rewrite checkConcurrency_while_spec by (cbn; lia). cbn [fst snd].
        rewrite count_app, count_repeat_false by reflexivity. reflexivity.
      * destruct (orNumber (parseInt (ActiveMessageCount qd)) 0 <? maxThreadsCreated w);
          reflexivity.
    + destruct (orNumber (parseInt (ActiveMessageCount qd)) 0 <? maxThreadsCreated w);
        reflexivity.
  - unfold readOneMessage_callback, bind, modify, perform, stateOf, effectsOf, valueOf.
    cbn [fst snd].
    destruct (strictEqString err AZURE_NO_MESSAGES); [reflexivity |].
    destruct (truthy err); reflexivity.
  - unfold done. destruct (truthy err); reflexivity.
  - rewrite done_unlock_settled_effects by lia. destruct (codeIs err "404"); reflexivity.
  - rewrite done_remove_settled_effects by lia. destruct (codeIs err "404"); reflexivity.
Qed.

End CounterBounds.

Lemma run_counter_bounds (name : string) (c : option Z) (evs : list Event) :
  1 <= concurrency (newWatcher name c) ->
  forall s s' : System,
    reachable name c s ->
    0 <= maxThreadsCreated (watcher s) ->
    forallb backlogsNonNegative evs = true ->
    run s evs = Some s' ->
    0 <= maxThreadsCreated (watcher s').
Proof.
  intros Hpos. induction evs as [| ev evs IH]; intros s s' Hreach H0 Hall Hrun;
    cbn [run] in Hrun.
  - injection Hrun as <-. exact H0.
  - cbn [forallb] in Hall. apply andb_true_iff in Hall as [Hev Hall].
    destruct (step s ev) as [s1 |] eqn:Hstep; [| discriminate].
    apply (IH s1 s'); [| | exact Hall | exact Hrun].
    + apply (reachable_step _ _ s s1 ev); assumption.
    + rewrite (step_watcher _ _ _ Hstep).
      apply (handle_nonnegative (concurrency (newWatcher name c)) Hpos);
        [apply reachable_ceiling; assumption | exact Hev | exact H0].
Qed.

(** X13.  With a positive ceiling, and as long as the client never reports
    a negative message count, the counter stays between 0 and the ceiling
    after any sequence of turns. *)
Theorem X13_counter_between_zero_and_ceiling (name : string) (c : option Z)
    (evs : list Event) (s : System) :
  1 <= concurrency (newWatcher name c) ->
  forallb backlogsNonNegative evs = true ->
  run (boot name c) evs = Some s ->
  0 <= maxThreadsCreated (watcher s) <= concurrency (watcher s).
Proof.
  intros Hpos Hall Hrun. split.
  - apply (run_counter_bounds name c evs Hpos (boot name c) s);
      [constructor | cbn; lia | exact Hall | exact Hrun].
  - assert (Hreach : reachable name c s)
      by (apply (run_reachable name c evs (boot name c)); [constructor | exact Hrun]).
    destruct (reachable_ceiling name c s Hpos Hreach) as [Hc Hle]. lia.
Qed.

Lemma X13_counter_between_zero_and_ceiling_witness :
  0 <= maxThreadsCreated (watcher (runFromBoot "orders" (Some 5) busyRun))
    <= concurrency (watcher (runFromBoot "orders" (Some 5) busyRun)).
Proof.
  apply (X13_counter_between_zero_and_ceiling "orders" (Some 5) busyRun).
  - apply Z.leb_le. reflexivity.
  - vm_compute. reflexivity.
  - vm_compute. reflexivity.
Defined.

(** X14.  With a positive ceiling the guard of [readOneMessage] never
    fires: no reachable log holds an error event of status
    [max_threads_exceeded]. *)
Theorem X14_guard_never_fires (name : string) (c : option Z) (s : System) :
  1 <= concurrency (newWatcher name c) ->
  reachable name c s ->
  count (hasStatus "max_threads_exceeded") (log s) = 0%nat.
Proof.
  intros Hpos Hreach. induction Hreach as [| s s' ev Hreach IH Hstep]; [reflexivity |].
  rewrite (step_log _ _ _ Hstep), count_app, IH.
  apply (handle_guard_silent (concurrency (newWatcher name c)) Hpos).
  apply reachable_ceiling; assumption.
Qed.

Lemma X14_guard_never_fires_witness :
  count (hasStatus "max_threads_exceeded")
    (log (runFromBoot "orders" (Some 5) faultyRun)) = 0%nat
  /\ List.length (errorEvents (log (runFromBoot "orders" (Some 5) faultyRun))) = 2%nat.
Proof.
  split; [| vm_compute; reflexivity].
  apply (X14_guard_never_fires "orders" (Some 5)).
  - apply Z.leb_le. reflexivity.
  - apply runFromBoot_reachable.
Defined.

(** *** Messages, handler and completion *)

Lemma lookupSettled_quiet (e : Effect) :
  lookupSettledEffect e = true -> quietEffect e = true.
Proof.
  destruct e; cbn; try discriminate; reflexivity.
Qed.

Lemma done_settled_quiet (w : Watcher) (s : Settlement unit) :
  forallb quietEffect (effectsOf (done_unlock_settled s w)) = true
  /\ forallb quietEffect (effectsOf (done_remove_settled s w)) = true.
Proof.
  destruct s as [[] | r]; unfold_m.
  - destruct (maxThreadsCreated w >? concurrency w); split; reflexivity.
  - destruct (instanceofErrorMessage r);
      cbn [fst snd maxThreadsCreated concurrency set_lastJobErrorDone];
      destruct (maxThreadsCreated w >? concurrency w); split; reflexivity.
Qed.

(** Only [done] issues a delete or unlock call, and only the receive
    callback invokes the handler. *)
Lemma handle_effects_by_turn (ev : Event) (w : Watcher) :
  match ev with
  | EvDone m err =>
      effectsOf (handle ev w) = [CallDelete m] \/ effectsOf (handle ev w) = [CallUnlock m]
  | EvReceive _ _ _ message =>
      effectsOf (handle ev w) = [CallHandler message]
      \/ forallb quietEffect (effectsOf (handle ev w)) = true
         /\ count isReceive (effectsOf (handle ev w)) = 0%nat
  | _ => forallb quietEffect (effectsOf (handle ev w)) = true
  end.
Proof.
  destruct ev as [| [| |] delay | site err remoteQueues | now now' err message
                  | m err | m err | m err].
  - reflexivity.
  - cbn [handle]. apply (forallb_weaken lookupSettledEffect);
      [exact lookupSettled_quiet | apply readOneMessage_effects].
  - cbn [handle]. unfold_m. destruct (queueData w); reflexivity.
  - cbn [handle]. unfold_m. destruct (queueData w); reflexivity.
  - apply (forallb_weaken lookupSettledEffect);
      [exact lookupSettled_quiet | apply lookup_settled_effects].
  - cbn [handle]. unfold readOneMessage_callback, bind, modify, perform,
      stateOf, effectsOf, valueOf. cbn [fst snd].
    destruct (strictEqString err AZURE_NO_MESSAGES); [right; split; reflexivity |].
    destruct (truthy err); [right; split; reflexivity | left; reflexivity].
  - cbn [handle]. unfold done. destruct (truthy err); [right | left]; reflexivity.
  - cbn [handle]. apply done_settled_quiet.
  - cbn [handle]. apply done_settled_quiet.
Qed.

Lemma removeFirst_subset (p x : Pending) (l : list Pending) :
  In x (removeFirst p l) -> In x l.
Proof.
  induction l as [| q l IH]; cbn; [intros [] |].
  destruct (Pending_eq_dec p q); [intros H; right; exact H |].
  intros [<- | H]; [left; reflexivity | right; exact (IH H)].
Qed.

Lemma step_pending (s s' : System) (ev : Event) (x : Pending) :
  step s ev = Some s' ->
  In x (pending s') ->
  In x (pending s) \/ exists e, In e (effectsOf (handle ev (watcher s))) /\ In x (pendingOf e).
Proof.
  unfold step. destruct (enabled s ev); [| discriminate].
  intros H. injection H as <-. cbn [pending].
  intros Hin. apply in_app_or in Hin as [Hin | Hin].
  - left. destruct (awaited ev) as [p |]; [| exact Hin].
    destruct (consumed p); [exact (removeFirst_subset _ _ _ Hin) | exact Hin].
  - right. apply in_flat_map in Hin. exact Hin.
Qed.

Lemma step_enabled (s s' : System) (ev : Event) (p : Pending) :
  step s ev = Some s' -> awaited ev = Some p -> In p (pending s).
Proof.
  unfold step, enabled. intros Hstep Hp. rewrite Hp in Hstep.
  destruct (in_dec Pending_eq_dec p (pending s)) as [Hin | _]; [exact Hin | discriminate].
Qed.

Lemma completionsFollowHandler_app (l effs : list Effect) :
  completionsFollowHandler l ->
  (forall l1 l2 e m,
     effs = l1 ++ e :: l2 ->
     e = CallDelete m \/ e = CallUnlock m ->
     In (CallHandler m) (l ++ l1)) ->
  completionsFollowHandler (l ++ effs).
Proof.
  intros Hl Heffs L1 L2 e m Heq He.
  apply app_eq_app in Heq as [l' [[Hla Hlb] | [Hla Hlb]]].
  - destruct l' as [| e' l''].
    + cbn in Hlb. rewrite app_nil_r in Hla. subst L1.
      specialize (Heffs [] L2 e m (eq_sym Hlb) He). rewrite app_nil_r in Heffs.
      exact Heffs.
    + cbn in Hlb. injection Hlb as <- _. exact (Hl L1 l'' e m Hla He).
  - subst L1. exact (Heffs l' L2 e m Hlb He).
Qed.

Lemma quiet_has_no_completion (effs l1 l2 : list Effect) (e : Effect) (m : option Message) :
  forallb quietEffect effs = true ->
  effs = l1 ++ e :: l2 ->
  e = CallDelete m \/ e = CallUnlock m ->
  False.
Proof.
  intros Hq Heq He.
  assert (Hin : In e effs) by (rewrite Heq; apply in_elt).
  pose proof (proj1 (forallb_forall _ _) Hq e Hin) as Hqe.
  destruct He as [-> | ->]; discriminate Hqe.
Qed.

Lemma quiet_has_no_handler (effs : list Effect) (e : Effect) (x : Pending) (m : option Message) :
  In e effs -> In x (pendingOf e) -> x = PDone m -> e = CallHandler m.
Proof.
  intros _ Hx ->.
  destruct e; cbn in Hx; try contradiction;
    destruct Hx as [Hx | []]; try discriminate Hx.
  injection Hx as ->. reflexivity.
Qed.

Lemma reachable_provenance (name : string) (c : option Z) (s : System) :
  reachable name c s ->
  completionsFollowHandler (log s)
  /\ forall m, In (PDone m) (pending s) -> In (CallHandler m) (log s).
Proof.
  intros Hreach. induction Hreach as [| s s' ev _ [IHlog IHpend] Hstep].
  - split.
    + intros l1 l2 e m Heq _. destruct l1; discriminate Heq.
    + intros m [].
  - rewrite (step_log _ _ _ Hstep). split.
    + apply completionsFollowHandler_app; [exact IHlog |].
      intros l1 l2 e m Heq He.
      pose proof (handle_effects_by_turn ev (watcher s)) as Hshape.
      destruct ev as [| t delay | site err remoteQueues | now now' err message
                      | m0 err | m0 err | m0 err];
        try (exfalso; exact (quiet_has_no_completion _ _ _ _ _ Hshape Heq He)).
      * destruct Hshape as [Hone | [Hq _]];
          [| exfalso; exact (quiet_has_no_completion _ _ _ _ _ Hq Heq He)].
        rewrite Hone in Heq. destruct l1 as [| a l1].
        -- injection Heq as <- _. destruct He as [He | He]; discriminate He.
        -- injection Heq as _ Heq. destruct l1; discriminate Heq.
      * apply in_or_app. left. apply IHpend.
        assert (Hm : m = m0).
        { destruct Hshape as [Hone | Hone]; rewrite Hone in Heq;
            (destruct l1 as [| a l1];
             [injection Heq as <- _; destruct He as [He | He];
              try discriminate He; injection He as ->; reflexivity
             | injection Heq as _ Heq; destruct l1; discriminate Heq]). }
        subst m0. exact (step_enabled _ _ _ _ Hstep eq_refl).
    + intros m Hin.
      destruct (step_pending _ _ _ _ Hstep Hin) as [Hold | [e [He Hx]]].
      * apply in_or_app. left. exact (IHpend m Hold).
      * apply in_or_app. right.
        rewrite <- (quiet_has_no_handler _ e _ m He Hx eq_refl). exact He.
Qed.

(** X15.  In every reachable log, a delete or unlock call for a message
    comes after the call that handed that same message to the message
    handler: the watcher never deletes or unlocks a message the handler did
    not get first. *)
Theorem X15_completion_follows_handler (name : string) (c : option Z) (s : System)
    (l1 l2 : list Effect) (e : Effect) (m : option Message) :
  reachable name c s ->
  log s = l1 ++ e :: l2 ->
  e = CallDelete m \/ e = CallUnlock m ->
  In (CallHandler m) l1.
Proof.
  intros Hreach Heq He.
  exact (proj1 (reachable_provenance name c s Hreach) l1 l2 e m Heq He).
Qed.

Lemma X15_completion_follows_handler_witness :
  In (CallHandler (Some 1%nat))
    [CallListQueues AtStart; SetTimeout TReadOneMessage 25; SetTimeout TReadOneMessage 25;
     SetTimeout TStartChecker 10000; CallReceive; CallReceive; CallHandler (Some 1%nat);
     CallHandler (Some 2%nat)].
Proof.
  apply (X15_completion_follows_handler "orders" (Some 2)
           (runFromBoot "orders" (Some 2) firstCompleted) _ [CallReceive]
           (CallDelete (Some 1%nat)) (Some 1%nat)).
  - apply runFromBoot_reachable.
  - vm_compute. reflexivity.
  - left. reflexivity.
Defined.

Lemma pendingOf_receives (effs : list Effect) :
  List.length (filter isPReceive (flat_map pendingOf effs)) = count isReceive effs.
Proof.
  unfold count. induction effs as [| e effs IH]; [reflexivity |].
  cbn [flat_map]. rewrite filter_app, length_app, IH.
  destruct e; reflexivity.
Qed.

Lemma removeFirst_receives_le (p : Pending) (l : list Pending) :
  (List.length (filter isPReceive (removeFirst p l))
   <= List.length (filter isPReceive l))%nat.
Proof.
  induction l as [| q l IH]; cbn [removeFirst filter]; [lia |].
  destruct (Pending_eq_dec p q).
  - destruct (isPReceive q); cbn [List.length]; lia.
  - cbn [filter]. destruct (isPReceive q); cbn [List.length]; lia.
Qed.

Lemma removeFirst_receive (l : list Pending) :
  In PReceive l ->
  S (List.length (filter isPReceive (removeFirst PReceive l)))
  = List.length (filter isPReceive l).
Proof.
  induction l as [| q l IH]; cbn [removeFirst filter In]; [intros [] |].
  destruct (Pending_eq_dec PReceive q) as [<- | Hne].
  - intros _. reflexivity.
  - intros [Heq | Hin]; [exfalso; apply Hne; symmetry; exact Heq |].
    cbn [filter]. destruct (isPReceive q); cbn [List.length]; rewrite <- (IH Hin);
      reflexivity.
Qed.

Lemma quiet_no_handler_call (effs : list Effect) :
  forallb quietEffect effs = true -> count isHandler effs = 0%nat.
Proof.
  intros Hq. apply count_none. apply (forallb_weaken quietEffect); [| exact Hq].
  intros e. unfold quietEffect. destruct (isHandler e); [| reflexivity].
  rewrite orb_true_r. discriminate.
Qed.

Lemma reachable_handler_budget (name : string) (c : option Z) (s : System) :
  reachable name c s ->
  (count isHandler (log s) + List.length (filter isPReceive (pending s))
   <= count isReceive (log s))%nat.
Proof.
  intros Hreach. induction Hreach as [| s s' ev _ IH Hstep]; [cbn; lia |].
  pose proof (handle_effects_by_turn ev (watcher s)) as Hshape.
  pose proof Hstep as Hstep'.
  unfold step in Hstep'. destruct (enabled s ev); [| discriminate].
  injection Hstep' as <-. cbn [log pending].
  rewrite !count_app, filter_app, length_app, pendingOf_receives.
  set (effs := effectsOf (handle ev (watcher s))) in *.
  destruct ev as [| t delay | site err remoteQueues | now now' err message
                  | m0 err | m0 err | m0 err]; cbn [awaited consumed].
  - rewrite (quiet_no_handler_call effs Hshape). lia.
  - rewrite (quiet_no_handler_call effs Hshape).
    pose proof (removeFirst_receives_le (PTimer t delay) (pending s)). lia.
  - rewrite (quiet_no_handler_call effs Hshape).
    pose proof (removeFirst_receives_le (PListQueues site) (pending s)). lia.
  - pose proof (removeFirst_receive (pending s) (step_enabled _ _ _ _ Hstep eq_refl)) as Hrm.
    destruct Hshape as [Hone | [Hq H0]].
    + rewrite Hone. cbn. cbn in Hrm. lia.
    + rewrite (quiet_no_handler_call effs Hq), H0. lia.
  - assert (Hh : count isHandler effs = 0%nat)
      by (destruct Hshape as [-> | ->]; reflexivity).
    rewrite Hh. lia.
  - rewrite (quiet_no_handler_call effs Hshape).
    pose proof (removeFirst_receives_le (PUnlock m0) (pending s)). lia.
  - rewrite (quiet_no_handler_call effs Hshape).
    pose proof (removeFirst_receives_le (PDelete m0) (pending s)). lia.
Qed.

(** X16.  Provided the client runs the callback of each receive call at
    most once, the message handler is never invoked more often than
    [receiveQueueMessage] was called: in every reachable state the handler
    invocations plus the receive calls still unanswered are at most the
    receive calls issued. *)
Theorem X16_handler_within_receives (name : string) (c : option Z) (s : System) :
  reachable name c s ->
  (count isHandler (log s) + List.length (filter isPReceive (pending s))
   <= count isReceive (log s))%nat.
Proof.
  exact (reachable_handler_budget name c s).
Qed.

Lemma X16_handler_within_receives_witness :
  count isHandler (log (runFromBoot "orders" (Some 2) firstCompleted)) = 2%nat
  /\ (count isHandler (log (runFromBoot "orders" (Some 2%Z) firstCompleted))
      + List.length
          (filter isPReceive (pending (runFromBoot "orders" (Some 2%Z) firstCompleted)))
      <= count isReceive (log (runFromBoot "orders" (Some 2%Z) firstCompleted)))%nat.
Proof.
  split; [vm_compute; reflexivity |].
  apply (X16_handler_within_receives "orders" (Some 2)).
  apply runFromBoot_reachable.
Defined.

(** *** [getWatcherInfo] after a lookup *)

(** X17.  After a lookup that yields the queue, at [start()] or at a tick,
    [getWatcherInfo] reports that snapshot, and as [currentMessagesInQueue]
    the very backlog figure the spin-up or the monitor has just acted on. *)
Theorem X17_reported_backlog_is_the_one_used (w : Watcher) (site : LookupSite)
    (err : JsValue) (remoteQueues : option (list QueueData)) (qd : QueueData) :
  getQueueData_callback (queueName w) err remoteQueues = Resolved (Some qd) ->
  info_queueData (getWatcherInfo (stateOf (handle (EvListQueues site err remoteQueues) w)))
    = Some qd
  /\ info_currentMessagesInQueue
       (getWatcherInfo (stateOf (handle (EvListQueues site err remoteQueues) w)))
     = activeMessageCount qd.
Proof.
  intros Hcb.
  assert (Hq : queueData (stateOf (handle (EvListQueues site err remoteQueues) w)) = Some qd).
  { destruct site; cbn [handle]; rewrite bind_get, Hcb.
    - rewrite (proj1 (start_settled_found w qd)).
      exact (proj2 (proj2 (startReceivingMessages_frame (set_queueData (Some qd) w) qd
                             eq_refl))).
    - exact (proj2 (proj2 (checkConcurrency_then_frame w qd))). }
  unfold getWatcherInfo.
  cbn [info_queueData info_currentMessagesInQueue].
  rewrite Hq. split; reflexivity.
Qed.

Lemma X17_reported_backlog_is_the_one_used_witness :
  info_currentMessagesInQueue
    (getWatcherInfo
       (stateOf (handle (EvListQueues AtCheckConcurrency JsNull
                           (Some [mkQueueData "orders" " 12 messages"]))
                   (watcher (runFromBoot "orders" (Some 5) busyRun)))))
  = 12.
Proof.
  apply (X17_reported_backlog_is_the_one_used
           (watcher (runFromBoot "orders" (Some 5) busyRun)) AtCheckConcurrency JsNull
           (Some [mkQueueData "orders" " 12 messages"])
           (mkQueueData "orders" " 12 messages")).
  vm_compute. reflexivity.
Defined.

(** *** Worker chains *)


